(** * backtrace.py: a call tracer built on the interpreter's trace hook

    Shallow embedding of [src/backtrace.py] and the properties of its
    path filter, event intake, formatters, output sink and entry points.

    Conventions of the embedding:
    - Python [int] is [Z]; [str] is [string] (UTF-8 bytes);
    - an exception is kept as the pair the code ever looks at: the name of
      its type and its [str()];
    - code that can raise returns a [result];
    - the process state touched by the entry points (trace hook slot, files,
      console, exception being handled) is an explicit [World]. *)

From stdpp Require Import gmap strings list pretty.
From Stdlib Require Import ZArith Lia Ascii HexadecimalString.

Open Scope string_scope.

(** ** Strings *)

(** The line separator used by ["\n".join] and by [f.write(... + "\n")]. *)
Definition nl : string := String (Ascii.ascii_of_nat 10) "".

(** Python's [needle in hay] on [str]: substring containment. *)
Fixpoint str_in (needle hay : string) : bool :=
  String.prefix needle hay ||
  match hay with
  | "" => false
  | String _ rest => str_in needle rest
  end.

(** Python's [s * n] for a possibly negative [n]: empty when [n <= 0]. *)
Definition str_mul (s : string) (n : Z) : string :=
  String.concat "" (replicate (Z.to_nat n) s).

(** Python's [sep.join(parts)]. *)
Definition join (sep : string) (parts : list string) : string :=
  String.concat sep parts.

(** [f"{n}"] for an [int]. *)
Definition fmt_int (n : Z) : string := pretty n.

(** ** Exceptions and results *)

(** What the code observes of an exception object: [type(e).__name__] and
    [str(e)]. *)
Record PyExc := mkExc { exc_type_name : string; exc_str : string }.

#[global] Instance PyExc_eq_dec : EqDecision PyExc.
Proof. solve_decision. Defined.

Inductive result (A : Type) : Type :=
| Ok (a : A)
| Raise (e : PyExc).
Arguments Ok {A} a.
Arguments Raise {A} e.

Definition IndexError (msg : string) : PyExc := mkExc "IndexError" msg.

(** [l[-1]] *)
Definition py_last {A} (l : list A) : result A :=
  match last l with
  | Some x => Ok x
  | None => Raise (IndexError "list index out of range")
  end.

(** [l.pop()], keeping the shortened list *)
Definition py_pop {A} (l : list A) : result (list A) :=
  match l with
  | [] => Raise (IndexError "pop from empty list")
  | _ => Ok (removelast l)
  end.

(** ** The environment of the module

    The module-level globals computed at import time and the [os.path]
    functions the module calls.  [os_path_relpath] is [None] where
    [os.path.relpath] raises [ValueError]. *)
Record Env := mkEnv {
  _cwd : string;
  _backtrace_file : string;
  sys_prefix : string;
  os_path_abspath : string -> string;
  os_path_relpath : string -> string -> option string;
}.

(** ** Code objects and frames *)

(** A code object: its file, its name, and [co_body] standing for everything
    else [==] on code objects compares (bytecode, constants, first line...).
    Python does not compare [co_filename]. *)
Record Code := mkCode { co_filename : string; co_name : string; co_body : nat }.

Definition code_eqb (a b : Code) : bool :=
  String.eqb (co_name a) (co_name b) && Nat.eqb (co_body a) (co_body b).

(** A local binding's value, as far as [_get_function_name] looks: a callable
    with a [__code__], or anything else. *)
Inductive Local : Type :=
| LFunction (code : Code)
| LOther.

(** A frame.  [f_id] is the identity of the frame object: [frame != other]
    compares identities. *)
#[warnings="-register-all"]
Inductive Frame : Type := mkFrame {
  f_id : nat;
  f_code : Code;
  f_lineno : Z;
  f_locals : list (string * Local);
  f_back : option Frame;
}.

(** [frame != self.root_frame], where [root_frame] may still be [None] *)
Definition frame_ne (frame : Frame) (root : option Frame) : bool :=
  match root with
  | Some r => negb (Nat.eqb (f_id frame) (f_id r))
  | None => true
  end.

(** ** Path and frame utilities *)

Definition _get_relative_path (env : Env) (filepath : string) : string :=
  match os_path_relpath env filepath (_cwd env) with
  | Some rel => rel
  | None => filepath
  end.

Definition matches_code (code : Code) (value : Local) : bool :=
  match value with
  | LFunction c => code_eqb c code
  | LOther => false
  end.

Fixpoint find_binding (code : Code) (items : list (string * Local)) : option string :=
  match items with
  | [] => None
  | (name, value) :: rest =>
      if matches_code code value then Some name else find_binding code rest
  end.

Definition _get_function_name (frame : Frame) : string :=
  let code := f_code frame in
  let func_name := co_name code in
  if String.eqb func_name "<module>" then
    match find_binding code (f_locals frame) with
    | Some name => name
    | None => func_name
    end
  else func_name.

Definition _should_trace (env : Env) (filepath : string) : bool :=
  let abspath := os_path_abspath env filepath in
  if String.eqb abspath (_backtrace_file env) then false
  else if str_in "site-packages" abspath then false
  else if str_in "dist-packages" abspath then false
  else if str_in (sys_prefix env) abspath && negb (str_in (_cwd env) abspath) then false
  else true.

(** *** The filter as the specification words it

    "a path containing a segment that names a standard package-installation
    directory" and "a path under the runtime's installation prefix unless it
    is also under the working directory", read on path segments. *)

Fixpoint split_on (sep : Ascii.ascii) (s : string) : list string :=
  match s with
  | "" => [""]
  | String c rest =>
      if Ascii.eqb c sep then "" :: split_on sep rest
      else match split_on sep rest with
           | seg :: segs => String c seg :: segs
           | [] => [String c ""]
           end
  end.

Definition segments (path : string) : list string := split_on "/"%char path.

Definition has_segment (name path : string) : bool :=
  existsb (String.eqb name) (segments path).

(** [path] is [dir] itself or lies below it *)
Definition path_under (dir path : string) : bool :=
  String.eqb path dir || String.prefix (dir ++ "/") path.

Definition isTraceable_spec (env : Env) (filepath : string) : bool :=
  let abspath := os_path_abspath env filepath in
  negb (String.eqb abspath (_backtrace_file env)
        || has_segment "site-packages" abspath
        || has_segment "dist-packages" abspath
        || (path_under (sys_prefix env) abspath
            && negb (path_under (_cwd env) abspath))).

(** ** Trace events and the trace context *)

(** A recorded event: the tuples [('call', path, lineno, func, None)],
    [('return', path, lineno, func, None)] and
    [('exception', path, lineno, func, (exc_type, exc_value))]. *)
Inductive TraceEvent : Type :=
| EvCall (path : string) (lineno : Z) (func_name : string)
| EvReturn (path : string) (lineno : Z) (func_name : string)
| EvException (path : string) (lineno : Z) (func_name : string) (exc : PyExc).

Definition ev_path (e : TraceEvent) : string :=
  match e with
  | EvCall p _ _ | EvReturn p _ _ | EvException p _ _ _ => p
  end.

Definition ev_lineno (e : TraceEvent) : Z :=
  match e with
  | EvCall _ l _ | EvReturn _ l _ | EvException _ l _ _ => l
  end.

Definition ev_func (e : TraceEvent) : string :=
  match e with
  | EvCall _ _ f | EvReturn _ _ f | EvException _ _ f _ => f
  end.

(** The event names the interpreter passes to a trace function, with the
    part of [arg] the tracer reads: the exception of an ['exception'] event. *)
Inductive RawEvent : Type :=
| RawCall
| RawLine
| RawReturn
| RawException (exc : PyExc)
| RawOpcode.

(** [exception_info]: [(exc_type, exc_value, rel_path, lineno, func_name)] *)
Record ExcInfo := mkExcInfo {
  xi_exc : PyExc;
  xi_path : string;
  xi_lineno : Z;
  xi_func : string;
}.

Record _TraceContext := mkCtx {
  target_code : Code;
  log_file : option string;
  return_trace : bool;
  use_rich : bool;
  events : list TraceEvent;
  exception_info : option ExcInfo;
  started : bool;
  root_frame : option Frame;
}.

(** [_TraceContext.__init__] *)
Definition new_context (target : Code) (log_file : option string)
    (return_trace use_rich : bool) : _TraceContext :=
  mkCtx target log_file return_trace use_rich [] None false None.

Definition set_started (ctx : _TraceContext) (frame : Frame) : _TraceContext :=
  mkCtx (target_code ctx) (log_file ctx) (return_trace ctx) (use_rich ctx)
        (events ctx) (exception_info ctx) true (Some frame).

Definition append_event (ctx : _TraceContext) (e : TraceEvent) : _TraceContext :=
  mkCtx (target_code ctx) (log_file ctx) (return_trace ctx) (use_rich ctx)
        (events ctx ++ [e]) (exception_info ctx) (started ctx) (root_frame ctx).

Definition set_exception_info (ctx : _TraceContext) (xi : ExcInfo) : _TraceContext :=
  mkCtx (target_code ctx) (log_file ctx) (return_trace ctx) (use_rich ctx)
        (events ctx) (Some xi) (started ctx) (root_frame ctx).

(** Where a ['call'] event is recorded: the caller's location when the frame
    has a caller and is not the root frame, else the frame's own. *)
Definition call_location (env : Env) (ctx : _TraceContext) (frame : Frame)
    : string * Z :=
  match f_back frame with
  | Some back =>
      if frame_ne frame (root_frame ctx)
      then (_get_relative_path env (co_filename (f_code back)), f_lineno back)
      else (_get_relative_path env (co_filename (f_code frame)), f_lineno frame)
  | None => (_get_relative_path env (co_filename (f_code frame)), f_lineno frame)
  end.

(** [trace_func]: the new state of the context.  The Python method returns
    itself on every path, so the continuation carries no information. *)
Definition trace_func (env : Env) (ctx : _TraceContext) (frame : Frame)
    (event : RawEvent) : _TraceContext :=
  let code := f_code frame in
  let filepath := co_filename code in
  if negb (_should_trace env filepath) then ctx
  else
    let ctx :=
      if negb (started ctx) && code_eqb code (target_code ctx)
      then set_started ctx frame else ctx in
    if negb (started ctx) then ctx
    else
      let lineno := f_lineno frame in
      let func_name := _get_function_name frame in
      let rel_path := _get_relative_path env filepath in
      match event with
      | RawCall =>
          let '(path, line) := call_location env ctx frame in
          append_event ctx (EvCall path line func_name)
      | RawReturn =>
          append_event ctx (EvReturn rel_path lineno func_name)
      | RawException exc =>
          let ctx := set_exception_info ctx (mkExcInfo exc rel_path lineno func_name) in
          append_event ctx (EvException rel_path lineno func_name exc)
      | RawLine | RawOpcode => ctx
      end.

(** The hook fed with the events of a run, oldest first. *)
Definition feed (env : Env) (ctx : _TraceContext) (deliveries : list (Frame * RawEvent))
    : _TraceContext :=
  foldl (fun c d => trace_func env c (fst d) (snd d)) ctx deliveries.

(** ** Plain formatter *)

Definition indent_of (depth : Z) : string := str_mul "    " depth.

(** One iteration of the loop of [_format_plain]: the line appended and the
    new depth. *)
Definition plain_step (is_failure : bool) (depth : Z) (e : TraceEvent)
    : string * Z :=
  let indent := indent_of depth in
  match e with
  | EvCall filepath lineno func_name =>
      (indent ++ "↳ " ++ filepath ++ ":" ++ fmt_int lineno ++ " (" ++ func_name ++ ")",
       (depth + 1)%Z)
  | EvReturn filepath lineno func_name =>
      let depth := (depth - 1)%Z in
      let indent := indent_of depth in
      (indent ++ "↰ " ++ filepath ++ " (" ++ func_name ++ ")", depth)
  | EvException filepath lineno func_name exc =>
      if is_failure then
        (indent ++ "✗ " ++ filepath ++ ":" ++ fmt_int lineno ++ " (" ++ func_name
           ++ ") <-- EXCEPTION HERE: " ++ exc_type_name exc ++ ": " ++ exc_str exc,
         depth)
      else
        (indent ++ "⚠ " ++ filepath ++ ":" ++ fmt_int lineno ++ " (" ++ func_name
           ++ ") (handled exception: " ++ exc_type_name exc ++ ")",
         depth)
  end.

(** The loop: [lines] and [depth] after the events. *)
Fixpoint plain_loop (is_failure : bool) (evs : list TraceEvent)
    (lines : list string) (depth : Z) : list string * Z :=
  match evs with
  | [] => (lines, depth)
  | e :: rest =>
      let '(line, depth') := plain_step is_failure depth e in
      plain_loop is_failure rest (lines ++ [line]) depth'
  end.

Definition plain_lines (ctx : _TraceContext) (is_failure : bool) : list string :=
  fst (plain_loop is_failure (events ctx) [] 0%Z).

(** The value of [depth] when the loop of [_format_plain] ends. *)
Definition plain_final_depth (evs : list TraceEvent) (is_failure : bool) : Z :=
  snd (plain_loop is_failure evs [] 0%Z).

Definition plain_header (ctx : _TraceContext) (is_failure : bool) : string :=
  match is_failure, exception_info ctx with
  | true, Some xi =>
      "EXCEPTION: " ++ exc_type_name (xi_exc xi) ++ ": " ++ exc_str (xi_exc xi)
        ++ " at " ++ xi_path xi ++ ":" ++ fmt_int (xi_lineno xi)
  | _, _ =>
      match events ctx with
      | first :: _ =>
          "EXECUTION TRACE (no exception) at " ++ ev_path first ++ ":"
            ++ fmt_int (ev_lineno first)
      | [] => "EXECUTION TRACE (no exception)"
      end
  end.

Definition _format_plain (ctx : _TraceContext) (status : string) (is_failure : bool)
    : string :=
  let lines := plain_lines ctx is_failure in
  let header := plain_header ctx is_failure in
  let trailer := "STATUS: " ++ status in
  let output :=
    ([header; "=== BACKTRACE ==="] ++ lines ++ ["================="; trailer])%list in
  join nl output.

(** ** Structured (rich) formatter

    [rich.tree.Tree] nodes are mutable objects shared between the tree and
    the stack of [_build_tree].  The nodes live in a heap, a list indexed by
    node handle; the root of a tree is handle [0]. *)

Record Node := mkNode { node_label : string; node_children : list nat }.

Definition Tree := list Node.

(** [Tree(label)] *)
Definition Tree_new (label : string) : Tree := [mkNode label []].

Definition add_child (child : nat) (n : Node) : Node :=
  mkNode (node_label n) (node_children n ++ [child]).

(** [parent.add(label)]: the heap with the new child and the child's handle *)
Definition Tree_add (heap : Tree) (parent : nat) (label : string) : Tree * nat :=
  let child := length heap in
  ((alter (add_child child) parent heap ++ [mkNode label []])%list, child).

Definition bind {A B} (c : result A) (k : A -> result B) : result B :=
  match c with
  | Ok a => k a
  | Raise e => Raise e
  end.

Notation "'let!' x ':=' c 'in' k" := (bind c (fun x => k))
  (at level 10, x name, c at level 100, k at level 200).

(** State of the loop of [_build_tree]: the node heap and the stack of
    handles. *)
Record BuildState := mkBuild { bs_heap : Tree; bs_stack : list nat }.

Definition call_label (filepath : string) (lineno : Z) (func_name : string) : string :=
  "[cyan]↳[/cyan] " ++ filepath ++ ":" ++ fmt_int lineno
    ++ " [yellow](" ++ func_name ++ ")[/yellow]".

Definition return_label (filepath func_name : string) : string :=
  "[green]↰[/green] " ++ filepath ++ " [yellow](" ++ func_name ++ ")[/yellow]".

Definition exception_label (is_failure : bool) (filepath : string) (lineno : Z)
    (func_name : string) (exc : PyExc) : string :=
  if is_failure then
    "[red]✗[/red] " ++ filepath ++ ":" ++ fmt_int lineno ++ " [yellow](" ++ func_name
      ++ ")[/yellow] [red]<-- EXCEPTION: " ++ exc_type_name exc ++ ": " ++ exc_str exc
      ++ "[/red]"
  else
    "[yellow]⚠[/yellow] " ++ filepath ++ ":" ++ fmt_int lineno ++ " [yellow](" ++ func_name
      ++ ")[/yellow] [dim]<-- handled exception: " ++ exc_type_name exc ++ ": "
      ++ exc_str exc ++ "[/dim]".

(** One iteration of the loop of [_build_tree]. *)
Definition build_step (is_failure : bool) (st : BuildState) (e : TraceEvent)
    : result BuildState :=
  let heap := bs_heap st in
  let stack := bs_stack st in
  match e with
  | EvCall filepath lineno func_name =>
      let label := call_label filepath lineno func_name in
      let! top := py_last stack in
      let '(heap, node) := Tree_add heap top label in
      Ok (mkBuild heap (stack ++ [node]))
  | EvReturn filepath lineno func_name =>
      let label := return_label filepath func_name in
      if (1 <? length stack)%nat then
        let! top := py_last stack in
        let '(heap, _) := Tree_add heap top label in
        let! stack := py_pop stack in
        Ok (mkBuild heap stack)
      else Ok st
  | EvException filepath lineno func_name exc =>
      let label := exception_label is_failure filepath lineno func_name exc in
      let! top := py_last stack in
      let '(heap, _) := Tree_add heap top label in
      Ok (mkBuild heap stack)
  end.

Fixpoint build_loop (is_failure : bool) (evs : list TraceEvent) (st : BuildState)
    : result BuildState :=
  match evs with
  | [] => Ok st
  | e :: rest =>
      let! st := build_step is_failure st e in
      build_loop is_failure rest st
  end.

(** The state [_build_tree] starts its loop in: the root labelled with the
    first event, and the stack [[tree]]. *)
Definition build_init (first_event : TraceEvent) : BuildState :=
  let root_label :=
    call_label (ev_path first_event) (ev_lineno first_event) (ev_func first_event) in
  mkBuild (Tree_new root_label) [0%nat].

Definition _build_tree (ctx : _TraceContext) (is_failure : bool) : result Tree :=
  match events ctx with
  | [] => Ok (Tree_new "No events captured")
  | first_event :: rest =>
      let! st := build_loop is_failure rest (build_init first_event) in
      Ok (bs_heap st)
  end.

(** What a [rich.panel.Panel] is built from. *)
Inductive Renderable : Type :=
| RTree (t : Tree)
| RMarkup (s : string).

Record Panel := mkPanel {
  renderable : Renderable;
  title : string;
  subtitle : string;
  border_style : string;
  padding : Z * Z;
}.

(** The value of [format_trace]: a [str] in plain mode, a [Panel] in rich
    mode. *)
Inductive Formatted : Type :=
| FStr (s : string)
| FPanel (p : Panel).

Definition format_trace (ctx : _TraceContext) (status : string) (is_failure : bool)
    : result Formatted :=
  if negb (use_rich ctx) then Ok (FStr (_format_plain ctx status is_failure))
  else
    let '(title, subtitle, status_color) :=
      match is_failure, exception_info ctx with
      | true, Some xi =>
          ("[red bold]EXCEPTION: " ++ exc_type_name (xi_exc xi) ++ "[/red bold]",
           exc_str (xi_exc xi) ++ " at " ++ xi_path xi ++ ":" ++ fmt_int (xi_lineno xi),
           "red")
      | _, _ =>
          ("[green bold]EXECUTION TRACE[/green bold]",
           match exception_info ctx with
           | None => "no exception"
           | Some _ => "exception handled"
           end,
           "green")
      end in
    let! tree := _build_tree ctx is_failure in
    Ok (FPanel (mkPanel (RTree tree) title subtitle status_color (1, 2)%Z)).

(** ** The process state *)

(** What [sys.gettrace()] can hold: the [trace_func] of a context of this
    module, or a trace function installed by someone else. *)
Inductive Tracer : Type :=
| ContextTracer (target : Code)
| ForeignTracer (n : nat).

Inductive ConsoleItem : Type :=
| Printed (s : string)          (* [print(s)] *)
| RichPrinted (p : Panel).      (* [_console.print(p)] *)

(** [trace_hook] is the slot of [sys.settrace]; [handled_exc] the exception
    the caller is handling, the one [sys.exc_info()] reports when nothing is
    in flight in the callee; [files] the contents of the files written so
    far; [open_errors] the paths [open(path, 'a')] fails on, with the
    [OSError] raised; [panel_addr] the address the interpreter gives a
    [Panel] object. *)
Record World := mkWorld {
  trace_hook : option Tracer;
  handled_exc : option PyExc;
  files : gmap string string;
  open_errors : gmap string PyExc;
  console : list ConsoleItem;
  panel_addr : Panel -> N;
}.

(** [sys.settrace(hook)] *)
Definition settrace (hook : option Tracer) (w : World) : World :=
  mkWorld hook (handled_exc w) (files w) (open_errors w) (console w) (panel_addr w).

Definition set_files (fs : gmap string string) (w : World) : World :=
  mkWorld (trace_hook w) (handled_exc w) fs (open_errors w) (console w) (panel_addr w).

Definition console_out (item : ConsoleItem) (w : World) : World :=
  mkWorld (trace_hook w) (handled_exc w) (files w) (open_errors w)
          (console w ++ [item]) (panel_addr w).

(** [with open(path, 'a') as f: f.write(content)] *)
Definition append_to_file (path content : string) (w : World) : result unit * World :=
  match open_errors w !! path with
  | Some err => (Raise err, w)
  | None => (Ok tt, set_files (<[path := default "" (files w !! path) ++ content]> (files w)) w)
  end.

(** ** Output sink *)

Definition hex (n : N) : string := NilZero.string_of_uint (N.to_hex_uint n).

(** Python's default [object.__repr__], which [str()] falls back to.
    [rich.panel.Panel] defines neither [__str__] nor [__repr__]. *)
Definition object_str (cls : string) (addr : N) : string :=
  "<" ++ cls ++ " object at 0x" ++ hex addr ++ ">".

(** [str(panel)] *)
Definition Panel_str (w : World) (p : Panel) : string :=
  object_str "rich.panel.Panel" (panel_addr w p).

(** [x if isinstance(x, str) else str(x)] *)
Definition to_str (w : World) (x : Formatted) : string :=
  match x with
  | FStr s => s
  | FPanel p => Panel_str w p
  end.

(** Truthiness of an [Optional[str]]: [None] and [""] are false. *)
Definition truthy (p : option string) : option string :=
  match p with
  | Some s => if String.eqb s "" then None else Some s
  | None => None
  end.

Definition output_trace (ctx : _TraceContext) (trace_output : Formatted) (w : World)
    : result (option string) * World :=
  if return_trace ctx then (Ok (Some (to_str w trace_output)), w)
  else
    match truthy (log_file ctx) with
    | Some path =>
        let content := to_str w trace_output in
        match append_to_file path (content ++ nl) w with
        | (Ok _, w) => (Ok None, w)
        | (Raise err, w) => (Raise err, w)
        end
    | None =>
        match use_rich ctx, trace_output with
        | true, FPanel p => (Ok None, console_out (RichPrinted p) w)
        | _, _ => (Ok None, console_out (Printed (to_str w trace_output)) w)
        end
    end.

(** ** Instrumentation entry points *)

Inductive PyValue : Type :=
| VNone
| VInt (n : Z)
| VStr (s : string).

(** A traced callable: its code object and what a call does.  A call runs in
    a world where the hook is installed; it delivers trace events to the
    hook, returns or raises, and leaves a world behind. *)
Record PyFunction := mkFunction {
  fn_code : Code;
  fn_call : list PyValue -> World -> list (Frame * RawEvent) * result PyValue * World;
}.

(** The keyword arguments of [trace_calls]. *)
Record Config := mkConfig {
  cfg_log_file : option string;
  cfg_return_trace : bool;
  cfg_trace_on_success : bool;
  cfg_use_rich : bool;
}.

(** A report handed to the output sink: the arguments of [format_trace] and
    its value. *)
Record Report := mkReport {
  rep_status : string;
  rep_is_failure : bool;
  rep_output : Formatted;
}.

(** What a call of [wrapper] leaves: the value returned or the exception
    that escapes, the world, the reports routed to the sink in order, and
    what [output_trace] returned to [wrapper] for each of them. *)
Record WrapperRun := mkRun {
  run_outcome : result PyValue;
  run_world : World;
  run_reports : list Report;
  run_sink_returns : list (option string);
}.

(** [trace_output = ctx.format_trace(status, is_failure=...);
     ctx.output_trace(trace_output)], the value of [output_trace] being
    dropped by the statement. *)
Definition emit (ctx : _TraceContext) (status : string) (is_failure : bool)
    (pending : result PyValue) (run : WrapperRun) : WrapperRun :=
  match format_trace ctx status is_failure with
  | Raise err => mkRun (Raise err) (run_world run) (run_reports run) (run_sink_returns run)
  | Ok trace_output =>
      let reports := (run_reports run ++ [mkReport status is_failure trace_output])%list in
      match output_trace ctx trace_output (run_world run) with
      | (Ok returned, w) =>
          mkRun pending w reports (run_sink_returns run ++ [returned])
      | (Raise err, w) => mkRun (Raise err) w reports (run_sink_returns run)
      end
  end.

(** [wrapper], the callable [trace_calls(...)(func)] returns, applied to
    [args] *)
Definition wrapper (env : Env) (cfg : Config) (func : PyFunction)
    (args : list PyValue) (w : World) : WrapperRun :=
  let ctx := new_context (fn_code func) (cfg_log_file cfg) (cfg_return_trace cfg)
                         (cfg_use_rich cfg) in
  let old_trace := trace_hook w in
  let w := settrace (Some (ContextTracer (fn_code func))) w in
  (* try: *)
  let '(deliveries, outcome, w) := fn_call func args w in
  let ctx := feed env ctx deliveries in
  let run := mkRun outcome w [] [] in
  let run :=
    match outcome with
    | Ok result =>
        if cfg_trace_on_success cfg then emit ctx "PASS" false (Ok result) run
        else run
    | Raise _ => run
    end in
  (* finally: *)
  let run := mkRun (run_outcome run) (settrace old_trace (run_world run))
                   (run_reports run) (run_sink_returns run) in
  let exc_info :=
    match run_outcome run with
    | Raise err => Some err
    | Ok _ => handled_exc (run_world run)
    end in
  match exc_info with
  | Some _ => emit ctx "FAIL" true (run_outcome run) run
  | None => run
  end.

(** The defaults of [trace_calls], also what the bare form [@trace_calls]
    (a callable in the place of [log_file]) runs with. *)
Definition default_config : Config := mkConfig None false true true.

(** [trace_calls] with its keyword arguments, applied to [func]: the
    decorated callable *)
Definition trace_calls (env : Env) (cfg : Config) (func : PyFunction)
    : list PyValue -> World -> WrapperRun :=
  wrapper env cfg func.

Definition run_and_log_backtrace (env : Env) (func : PyFunction) (args : list PyValue)
    (cfg : Config) (w : World) : WrapperRun :=
  let decorated := trace_calls env cfg func in
  decorated args w.

(** A warning object: [type(warning).__name__] and [str(warning)]. *)
Record Warning := mkWarning { warning_type : string; warning_message : string }.

Definition UserWarning (message : string) : Warning := mkWarning "UserWarning" message.

(** [log_warning]; [frame] is [sys._getframe(1)], the caller's frame. *)
Definition log_warning (env : Env) (warning : Warning) (log_file : option string)
    (return_trace use_rich : bool) (frame : Frame) (w : World)
    : result (option string) * World :=
  let warning_type := warning_type warning in
  let message := warning_message warning in
  let filepath := co_filename (f_code frame) in
  let lineno := f_lineno frame in
  let rel_path := _get_relative_path env filepath in
  if use_rich then
    let panel :=
      mkPanel (RMarkup ("[yellow]↳[/yellow] " ++ rel_path ++ ":" ++ fmt_int lineno
                          ++ " (warning_site)"))
              ("[yellow bold]WARNING: " ++ warning_type ++ "[/yellow bold]")
              message "yellow" (1, 2)%Z in
    if return_trace then (Ok (Some (Panel_str w panel)), w)
    else
      match truthy log_file with
      | Some path =>
          match append_to_file path (Panel_str w panel ++ nl) w with
          | (Ok _, w) => (Ok None, w)
          | (Raise err, w) => (Raise err, w)
          end
      | None => (Ok None, console_out (RichPrinted panel) w)
      end
  else
    let header :=
      "WARNING: " ++ warning_type ++ ": " ++ message ++ " at " ++ rel_path ++ ":"
        ++ fmt_int lineno in
    let output :=
      [header; "=== BACKTRACE ===";
       "↳ " ++ rel_path ++ ":" ++ fmt_int lineno ++ " (warning_site)";
       "================="; "STATUS: WARNING"] in
    let trace_str := join nl output in
    if return_trace then (Ok (Some trace_str), w)
    else
      match truthy log_file with
      | Some path =>
          match append_to_file path (trace_str ++ nl) w with
          | (Ok _, w) => (Ok None, w)
          | (Raise err, w) => (Raise err, w)
          end
      | None => (Ok None, console_out (Printed trace_str) w)
      end.

(** ** Notions the properties are stated with *)

(** The root frame once the gate has been passed: the remembered one, or
    this frame when this very event opens the recording. *)
Definition root_after_gate (ctx : _TraceContext) (frame : Frame) : option Frame :=
  if started ctx then root_frame ctx else Some frame.

(** The body lines of the plain report, event by event, from a depth. *)
Fixpoint plain_body (is_failure : bool) (evs : list TraceEvent) (depth : Z)
    : list string :=
  match evs with
  | [] => []
  | e :: rest =>
      fst (plain_step is_failure depth e)
        :: plain_body is_failure rest (snd (plain_step is_failure depth e))
  end.

(** Calls minus returns. *)
Fixpoint depth_delta (evs : list TraceEvent) : Z :=
  match evs with
  | [] => 0
  | EvCall _ _ _ :: rest => 1 + depth_delta rest
  | EvReturn _ _ _ :: rest => -1 + depth_delta rest
  | EvException _ _ _ _ :: rest => depth_delta rest
  end.

(** Event logs in which every call has its matching return: the logs of
    call trees.  A call is followed by the log of what it runs, then by its
    return; exception events may stand anywhere. *)
Inductive matched : list TraceEvent -> Prop :=
| matched_nil : matched []
| matched_exception path lineno func exc rest :
    matched rest -> matched (EvException path lineno func exc :: rest)
| matched_call path lineno func path' lineno' func' inner rest :
    matched inner -> matched rest ->
    matched (EvCall path lineno func :: inner ++ EvReturn path' lineno' func' :: rest).

(** The characters [hex] prints. *)
Definition hex_digit (c : ascii) : Prop :=
  In c (String.list_ascii_of_string "0123456789abcdef").

(** ** Concrete inputs used by the examples *)

(** A POSIX environment: the project in [/srv/app], the interpreter in a
    virtual environment next to it.  The paths handed to it below are
    absolute and normalised, where [os.path.abspath] is the identity and
    [os.path.relpath] strips the working directory. *)
Definition strip_dir (dir path : string) : string :=
  if String.prefix (dir ++ "/") path
  then String.substring (String.length dir + 1)
                        (String.length path - (String.length dir + 1)) path
  else path.

Definition posix_env : Env :=
  mkEnv "/srv/app" "/srv/app/backtrace.py" "/srv/app-venv"
        (fun path => path)
        (fun path start => Some (strip_dir start path)).

Definition code_f : Code := mkCode "/srv/app/main.py" "f" 1.
Definition code_g : Code := mkCode "/srv/app/main.py" "g" 2.
Definition code_main : Code := mkCode "/srv/app/main.py" "<module>" 0.

Definition frame_main : Frame := mkFrame 10 code_main 30 [] None.
Definition frame_f : Frame := mkFrame 11 code_f 5 [] (Some frame_main).
Definition frame_g : Frame := mkFrame 12 code_g 9 [] (Some (mkFrame 11 code_f 6 [] (Some frame_main))).

Definition ValueError (msg : string) : PyExc := mkExc "ValueError" msg.
Definition PermissionError (msg : string) : PyExc := mkExc "PermissionError" msg.

Definition empty_world : World :=
  mkWorld None None ∅ ∅ [] (fun _ => 140234234234234%N).

(** A world in which another tool already traces, and the log file cannot
    be opened. *)
Definition locked_world : World :=
  mkWorld (Some (ForeignTracer 7)) None ∅
          {[ "/var/log/trace.log" := PermissionError "[Errno 13] Permission denied: '/var/log/trace.log'" ]}
          [] (fun _ => 140234234234234%N).

(** [def f(): raise ValueError("bad")] *)
Definition raising_f : PyFunction :=
  mkFunction code_f
    (fun _ w => ([(frame_f, RawCall); (frame_f, RawLine);
                  (frame_f, RawException (ValueError "bad")); (frame_f, RawReturn)],
                 Raise (ValueError "bad"), w)).

(** [def f(): return g()] with [def g(): return 42] *)
Definition returning_f : PyFunction :=
  mkFunction code_f
    (fun _ w => ([(frame_f, RawCall); (frame_f, RawLine); (frame_g, RawCall);
                  (frame_g, RawLine); (frame_g, RawReturn); (frame_f, RawReturn)],
                 Ok (VInt 42), w)).

Definition log_to_locked_file : Config :=
  mkConfig (Some "/var/log/trace.log") false true false.

Definition return_plain : Config := mkConfig None true true false.

Definition sample_log : list TraceEvent :=
  [EvCall "main.py" 5 "f"; EvCall "main.py" 6 "g"; EvReturn "main.py" 9 "g";
   EvException "main.py" 7 "f" (ValueError "bad"); EvReturn "main.py" 7 "f"].

(** The context after a run of [f] in which [g] returned and [f] raised. *)
Definition sample_ctx (rich : bool) : _TraceContext :=
  mkCtx code_f None false rich sample_log
        (Some (mkExcInfo (ValueError "bad") "main.py" 7 "f")) true (Some frame_f).

(** The context after a run in which no exception event was seen. *)
Definition quiet_ctx (rich : bool) : _TraceContext :=
  mkCtx code_f None false rich
        [EvCall "main.py" 5 "f"; EvCall "main.py" 6 "g"; EvReturn "main.py" 9 "g";
         EvReturn "main.py" 5 "f"]
        None true (Some frame_f).

(** ** Notions the further properties are stated with *)

(** The exception slot a log accounts for: the last exception event. *)
Fixpoint last_exception (evs : list TraceEvent) : option ExcInfo :=
  match evs with
  | [] => None
  | e :: rest =>
      match last_exception rest with
      | Some xi => Some xi
      | None =>
          match e with
          | EvException path lineno func exc => Some (mkExcInfo exc path lineno func)
          | _ => None
          end
      end
  end.

(** A delivery the context ignores while it waits for the target: its file
    is filtered out, or its code is not the target's. *)
Definition ignored_while_waiting (env : Env) (ctx : _TraceContext)
    (d : Frame * RawEvent) : Prop :=
  _should_trace env (co_filename (f_code (fst d))) = false
  \/ code_eqb (f_code (fst d)) (target_code ctx) = false.

(** Module-level code whose locals bind a function built from the same
    code object. *)
Definition frame_module_bound : Frame :=
  mkFrame 13 code_main 1 [("x", LOther); ("entry", LFunction code_main); ("again", LFunction code_main)] None.

(** The child handles of all nodes of a heap, node after node. *)
Definition all_children (heap : Tree) : list nat := concat (map node_children heap).

(** Every node stands in the heap before its children. *)
Definition parent_before_child (heap : Tree) : Prop :=
  forall i n, heap !! i = Some n -> Forall (fun c => (i < c)%nat) (node_children n).

(** A heap is a tree rooted at handle [0] labelled [root_label]: every
    handle but [0] is the child of exactly one node, and that node stands
    before it. *)
Definition is_tree (root_label : string) (heap : Tree) : Prop :=
  node_label <$> heap !! 0%nat = Some root_label
  /\ all_children heap ≡ₚ seq 1 (length heap - 1)
  /\ parent_before_child heap.

(** The sink of a configuration cannot raise in a world: the report is
    returned, or it goes to the console, or the log file opens. *)
Definition sink_opens (cfg : Config) (w : World) : Prop :=
  cfg_return_trace cfg = true
  \/ forall path, truthy (cfg_log_file cfg) = Some path -> open_errors w !! path = None.

(** The context [wrapper] formats at the end of a call that delivered
    [deliveries] to the hook. *)
Definition context_of_run (env : Env) (cfg : Config) (func : PyFunction)
    (deliveries : list (Frame * RawEvent)) : _TraceContext :=
  feed env (new_context (fn_code func) (cfg_log_file cfg) (cfg_return_trace cfg)
                        (cfg_use_rich cfg)) deliveries.

(** A world in which the caller is handling an exception. *)
Definition handling_world : World :=
  mkWorld None (Some (mkExc "KeyError" "'k'")) ∅ ∅ [] (fun _ => 140234234234234%N).

Definition print_plain : Config := mkConfig None false true false.

(** ** Reports read line by line *)

(** The character of [nl]. *)
Definition newline : ascii := Ascii.ascii_of_nat 10.

(** A string that holds no newline. *)
Fixpoint single_line (s : string) : bool :=
  match s with
  | "" => true
  | String c rest => negb (Ascii.eqb c newline) && single_line rest
  end.

(** The lines of a text, as [text.split("\n")] gives them. *)
Definition text_lines (text : string) : list string := split_on newline text.





(** ** Input and output as the platform provides them

    [output_trace] opens and writes a file, prints, or hands a panel to the
    rich console.  Each of these can raise (a file that does not open, a
    write or a print that fails on the encoding or on a closed stream), and
    the code they run is traced like any other while the hook is
    installed.  A [Device] is what the platform does for each of them:
    [dev_append path content] is [with open(path, 'a') as f:
    f.write(content)], [dev_print] is [print], [dev_console_print] is
    [_console.print], and [dev_traced ctx w] are the events the hook of
    [ctx] receives while a report is formatted and put out in [w] under
    the installed hook. *)
Record Device := mkDevice {
  dev_append : string -> string -> World -> result unit * World;
  dev_print : string -> World -> result unit * World;
  dev_console_print : Panel -> World -> result unit * World;
  dev_traced : _TraceContext -> World -> list (Frame * RawEvent);
}.

(** The device of [append_to_file] and [console_out]: only opening a file
    can fail, and putting a report out runs no traced code. *)
Definition std_device : Device :=
  mkDevice append_to_file
           (fun s w => (Ok tt, console_out (Printed s) w))
           (fun p w => (Ok tt, console_out (RichPrinted p) w))
           (fun _ _ => []).

(** [output_trace] on a device. *)
Definition output_trace_on (dev : Device) (ctx : _TraceContext)
    (trace_output : Formatted) (w : World) : result (option string) * World :=
  if return_trace ctx then (Ok (Some (to_str w trace_output)), w)
  else
    match truthy (log_file ctx) with
    | Some path =>
        let content := to_str w trace_output in
        match dev_append dev path (content ++ nl) w with
        | (Ok _, w) => (Ok None, w)
        | (Raise err, w) => (Raise err, w)
        end
    | None =>
        match use_rich ctx, trace_output with
        | true, FPanel p =>
            match dev_console_print dev p w with
            | (Ok _, w) => (Ok None, w)
            | (Raise err, w) => (Raise err, w)
            end
        | _, _ =>
            match dev_print dev (to_str w trace_output) w with
            | (Ok _, w) => (Ok None, w)
            | (Raise err, w) => (Raise err, w)
            end
        end
    end.

(** [emit] on a device. *)
Definition emit_on (dev : Device) (ctx : _TraceContext) (status : string)
    (is_failure : bool) (pending : result PyValue) (run : WrapperRun) : WrapperRun :=
  match format_trace ctx status is_failure with
  | Raise err => mkRun (Raise err) (run_world run) (run_reports run) (run_sink_returns run)
  | Ok trace_output =>
      let reports := (run_reports run ++ [mkReport status is_failure trace_output])%list in
      match output_trace_on dev ctx trace_output (run_world run) with
      | (Ok returned, w) =>
          mkRun pending w reports (run_sink_returns run ++ [returned])
      | (Raise err, w) => mkRun (Raise err) w reports (run_sink_returns run)
      end
  end.

(** [wrapper] on a device.  The hook is still installed while the [PASS]
    report is formatted and put out, so the context goes on recording: the
    [FAIL] report of the [finally] block, formatted after the hook has
    been restored, is made from the context as the [PASS] emission left
    it. *)
Definition wrapper_on (dev : Device) (env : Env) (cfg : Config) (func : PyFunction)
    (args : list PyValue) (w : World) : WrapperRun :=
  let ctx := new_context (fn_code func) (cfg_log_file cfg) (cfg_return_trace cfg)
                         (cfg_use_rich cfg) in
  let old_trace := trace_hook w in
  let w := settrace (Some (ContextTracer (fn_code func))) w in
  (* try: *)
  let '(deliveries, outcome, w) := fn_call func args w in
  let ctx := feed env ctx deliveries in
  let run := mkRun outcome w [] [] in
  let '(ctx, run) :=
    match outcome with
    | Ok result =>
        if cfg_trace_on_success cfg
        then (feed env ctx (dev_traced dev ctx w),
              emit_on dev ctx "PASS" false (Ok result) run)
        else (ctx, run)
    | Raise _ => (ctx, run)
    end in
  (* finally: *)
  let run := mkRun (run_outcome run) (settrace old_trace (run_world run))
                   (run_reports run) (run_sink_returns run) in
  let exc_info :=
    match run_outcome run with
    | Raise err => Some err
    | Ok _ => handled_exc (run_world run)
    end in
  match exc_info with
  | Some _ => emit_on dev ctx "FAIL" true (run_outcome run) run
  | None => run
  end.

(** A device whose console is closed: [print] raises. *)
Definition closed_console : Device :=
  mkDevice append_to_file
           (fun s w => (Raise (mkExc "ValueError" "I/O operation on closed file."), w))
           (fun p w => (Ok tt, console_out (RichPrinted p) w))
           (fun _ _ => []).

(** A device on which putting a report out runs traced library code that
    raises and catches a [KeyError]. *)
Definition traced_device : Device :=
  mkDevice append_to_file
           (fun s w => (Ok tt, console_out (Printed s) w))
           (fun p w => (Ok tt, console_out (RichPrinted p) w))
           (fun _ _ =>
              [(mkFrame 60 (mkCode "/srv/app/lib/env.py" "lookup" 7) 12 [] (Some frame_main),
                RawException (mkExc "KeyError" "'TERM'"))]).

(** ** Proof steps shared by the properties of [wrapper] *)

(** Rewrite the emission in the goal with a lemma [H] that describes every
    emission as a record. *)
Ltac step_emit H :=
  match goal with
  | |- context [emit ?ctx ?status ?is_failure ?pending ?run] =>
      let s := fresh "s" in
      destruct (H status is_failure pending run) as [s ->]
  end.

Ltac finish_run := cbn; repeat split; auto; repeat constructor; eauto.

(** * Properties *)

(** ** The path filter *)

Lemma should_trace_false_iff env filepath :
  _should_trace env filepath = false <->
  let abspath := os_path_abspath env filepath in
  abspath = _backtrace_file env
  \/ str_in "site-packages" abspath = true
  \/ str_in "dist-packages" abspath = true
  \/ (str_in (sys_prefix env) abspath = true /\ str_in (_cwd env) abspath = false).
Proof.
  unfold _should_trace; cbv zeta.
  destruct (String.eqb_spec (os_path_abspath env filepath) (_backtrace_file env)) as [->|Hne].
  { split; auto. }
  destruct (str_in "site-packages" _) eqn:Hsite; [split; auto|].
  destruct (str_in "dist-packages" _) eqn:Hdist; [split; auto|].
  destruct (str_in (sys_prefix env) _) eqn:Hpre; destruct (str_in (_cwd env) _) eqn:Hcwd;
    cbn; split; auto; intros [?|[?|[?|[? ?]]]]; congruence.
Qed.

Lemma trace_func_untraceable env ctx frame event :
  _should_trace env (co_filename (f_code frame)) = false ->
  trace_func env ctx frame event = ctx.
Proof. intros H. unfold trace_func. now rewrite H. Qed.

(** Deliveries from untraceable files can be dropped from a run without
    changing the context it leaves. *)
Lemma feed_filter_traceable env deliveries : forall ctx,
  feed env ctx deliveries =
  feed env ctx
    (List.filter (fun d => _should_trace env (co_filename (f_code (fst d)))) deliveries).
Proof.
  unfold feed. induction deliveries as [|d ds IH]; intros ctx; [reflexivity|].
  cbn [List.filter foldl].
  destruct (_should_trace env (co_filename (f_code (fst d)))) eqn:Hd.
  - cbn [foldl]. apply IH.
  - rewrite (trace_func_untraceable _ _ _ _ Hd). apply IH.
Qed.

(** C5, as amended.  [_should_trace] returns false exactly when the absolute
    path is the tracer's own file, or contains ['site-packages'] or
    ['dist-packages'] as a substring, or contains the installation prefix as a
    substring without containing the working directory as a substring, and
    true otherwise; an event of a frame whose file fails the filter leaves
    the context, hence the event log, as it was; and a whole run records
    what it would record with the events of such frames removed. *)
Theorem C5_should_trace_substring_filter env filepath :
  (_should_trace env filepath = false <->
     os_path_abspath env filepath = _backtrace_file env
     \/ str_in "site-packages" (os_path_abspath env filepath) = true
     \/ str_in "dist-packages" (os_path_abspath env filepath) = true
     \/ (str_in (sys_prefix env) (os_path_abspath env filepath) = true
         /\ str_in (_cwd env) (os_path_abspath env filepath) = false))
  /\ (_should_trace env filepath = false ->
      forall ctx frame event,
        co_filename (f_code frame) = filepath ->
        trace_func env ctx frame event = ctx
        /\ events (trace_func env ctx frame event) = events ctx)
  /\ (forall ctx deliveries,
        events (feed env ctx deliveries) =
        events (feed env ctx
                  (List.filter (fun d => _should_trace env (co_filename (f_code (fst d))))
                               deliveries))).
Proof.
  split; [apply should_trace_false_iff|].
  split.
  - intros Hf ctx frame event <-.
    now rewrite (trace_func_untraceable _ _ _ _ Hf).
  - intros ctx deliveries. now rewrite <- feed_filter_traceable.
Qed.

Lemma C5_should_trace_substring_filter_witness :
  _should_trace posix_env "/usr/lib/python3/dist-packages/yaml/loader.py" = false
  /\ events (trace_func posix_env (sample_ctx false)
               (mkFrame 20 (mkCode "/usr/lib/python3/dist-packages/yaml/loader.py" "load" 3)
                        332 [] (Some frame_g))
               RawCall)
     = sample_log.
Proof.
  assert (H : _should_trace posix_env "/usr/lib/python3/dist-packages/yaml/loader.py" = false)
    by (vm_compute; reflexivity).
  split; [exact H|].
  destruct (C5_should_trace_substring_filter posix_env
              "/usr/lib/python3/dist-packages/yaml/loader.py") as (_ & Hrec & _).
  destruct (Hrec H (sample_ctx false)
              (mkFrame 20 (mkCode "/usr/lib/python3/dist-packages/yaml/loader.py" "load" 3)
                       332 [] (Some frame_g))
              RawCall eq_refl) as [_ Hev].
  exact Hev.
Defined.

(** C5, as stated, fails in both directions: a directory whose name merely
    contains ['site-packages'] is filtered out although no segment names a
    package-installation directory, and a file under the installation prefix
    is traced although it is not under the working directory, because the
    working directory is a substring of its path. *)
Lemma C5_counterexample :
  (_should_trace posix_env "/srv/app/site-packages-audit/check.py" = false
   /\ isTraceable_spec posix_env "/srv/app/site-packages-audit/check.py" = true)
  /\ (_should_trace posix_env "/srv/app-venv/bin/run.py" = true
      /\ isTraceable_spec posix_env "/srv/app-venv/bin/run.py" = false).
Proof. vm_compute. repeat split. Qed.

(** ** Event intake *)

Lemma trace_func_call_recorded env ctx frame :
  _should_trace env (co_filename (f_code frame)) = true ->
  started ctx = true \/ code_eqb (f_code frame) (target_code ctx) = true ->
  events (trace_func env ctx frame RawCall) =
  (events ctx ++
   [match f_back frame with
    | Some back =>
        if frame_ne frame (root_after_gate ctx frame)
        then EvCall (_get_relative_path env (co_filename (f_code back))) (f_lineno back)
                    (_get_function_name frame)
        else EvCall (_get_relative_path env (co_filename (f_code frame))) (f_lineno frame)
                    (_get_function_name frame)
    | None => EvCall (_get_relative_path env (co_filename (f_code frame))) (f_lineno frame)
                     (_get_function_name frame)
    end])%list.
Proof.
  intros Htr Hgate. unfold trace_func, root_after_gate, call_location. rewrite Htr. cbn [negb].
  destruct (started ctx) eqn:Hst; cbn [negb andb].
  - rewrite Hst. cbn [negb].
    destruct (f_back frame) as [back|]; [destruct (frame_ne frame (root_frame ctx))|];
      reflexivity.
  - destruct Hgate as [Hgate|Hgate]; [discriminate|]. rewrite Hgate. cbn.
    rewrite Nat.eqb_refl. cbn.
    destruct (f_back frame) as [back|]; reflexivity.
Qed.

(** C4.  A ['call'] event taken in by [trace_func] (its file is traceable)
    while recording is active (already started, or started by this very
    event) appends exactly one [EvCall]: at the caller's path and line when
    the frame has a caller and is not the root frame, and at the frame's own
    path and line when it is the root frame or has no caller. *)
Theorem C4_call_event_location env ctx frame :
  _should_trace env (co_filename (f_code frame)) = true ->
  started ctx = true \/ code_eqb (f_code frame) (target_code ctx) = true ->
  exists path line,
    events (trace_func env ctx frame RawCall) =
      (events ctx ++ [EvCall path line (_get_function_name frame)])%list
    /\ (forall back,
          f_back frame = Some back ->
          frame_ne frame (root_after_gate ctx frame) = true ->
          path = _get_relative_path env (co_filename (f_code back))
          /\ line = f_lineno back)
    /\ (f_back frame = None \/ frame_ne frame (root_after_gate ctx frame) = false ->
          path = _get_relative_path env (co_filename (f_code frame))
          /\ line = f_lineno frame).
Proof.
  intros Htr Hgate.
  rewrite (trace_func_call_recorded env ctx frame Htr Hgate).
  destruct (f_back frame) as [back|] eqn:Hback.
  - destruct (frame_ne frame (root_after_gate ctx frame)) eqn:Hne.
    + eexists _, _. split; [reflexivity|]. split.
      * intros b [= <-] _. auto.
      * intros [?|?]; discriminate.
    + eexists _, _. split; [reflexivity|]. split.
      * intros b _ ?. discriminate.
      * auto.
  - eexists _, _. split; [reflexivity|]. split.
    + intros b ?. discriminate.
    + auto.
Qed.

(** [g], called from line 6 of [f], is recorded at [main.py:6]; [f] itself,
    the root frame, is recorded at its own line although it has a caller. *)
Lemma C4_call_event_location_witness :
  events (trace_func posix_env (sample_ctx false) frame_g RawCall)
    = (sample_log ++ [EvCall "main.py" 6 "g"])%list
  /\ events (trace_func posix_env (new_context code_f None false false) frame_f RawCall)
    = [EvCall "main.py" 5 "f"].
Proof.
  split.
  - destruct (C4_call_event_location posix_env (sample_ctx false) frame_g)
      as (path & line & Hev & Hcaller & _);
      [vm_compute; reflexivity | left; reflexivity |].
    destruct (Hcaller _ eq_refl) as [-> ->]; [vm_compute; reflexivity|].
    exact Hev.
  - destruct (C4_call_event_location posix_env (new_context code_f None false false) frame_f)
      as (path & line & Hev & _ & Hown);
      [vm_compute; reflexivity | right; vm_compute; reflexivity |].
    destruct Hown as [-> ->]; [right; vm_compute; reflexivity|].
    exact Hev.
Defined.

(** ** The plain formatter *)

Lemma plain_step_depth is_failure depth e :
  snd (plain_step is_failure depth e) = (depth + depth_delta [e])%Z.
Proof. destruct e, is_failure; cbn [plain_step snd depth_delta]; lia. Qed.

Lemma plain_body_app is_failure evs1 : forall evs2 depth,
  plain_body is_failure (evs1 ++ evs2) depth =
  (plain_body is_failure evs1 depth
     ++ plain_body is_failure evs2 (depth + depth_delta evs1))%list.
Proof.
  induction evs1 as [|x xs IH]; intros evs2 depth; cbn [app plain_body].
  - cbn [depth_delta]. now rewrite Z.add_0_r.
  - rewrite IH, plain_step_depth. do 3 f_equal.
    destruct x; cbn [depth_delta]; lia.
Qed.

Lemma plain_loop_spec is_failure evs : forall lines depth,
  plain_loop is_failure evs lines depth =
  ((lines ++ plain_body is_failure evs depth)%list, (depth + depth_delta evs)%Z).
Proof.
  induction evs as [|e rest IH]; intros lines depth; cbn [plain_loop plain_body depth_delta].
  - now rewrite app_nil_r, Z.add_0_r.
  - destruct (plain_step is_failure depth e) as [line depth'] eqn:Hstep.
    rewrite IH, <- app_assoc. cbn [fst snd app]. f_equal.
    destruct e; cbn in Hstep; try destruct is_failure; injection Hstep as _ <-; lia.
Qed.

Lemma plain_body_length is_failure evs : forall depth,
  length (plain_body is_failure evs depth) = length evs.
Proof. induction evs as [|e rest IH]; intros depth; cbn; [reflexivity | now rewrite IH]. Qed.


Lemma plain_lines_body ctx is_failure :
  plain_lines ctx is_failure = plain_body is_failure (events ctx) 0.
Proof. unfold plain_lines. now rewrite plain_loop_spec. Qed.


Lemma single_line_app s t : single_line (s ++ t) = single_line s && single_line t.
Proof.
  induction s as [|c s IH]; [reflexivity|].
  change (String c s ++ t) with (String c (s ++ t)). cbn [single_line].
  now rewrite IH, andb_assoc.
Qed.

Lemma text_lines_single s : single_line s = true -> text_lines s = [s].
Proof.
  unfold text_lines. induction s as [|c s IH]; [reflexivity|].
  cbn [single_line split_on]. intros [Hc Hs]%andb_true_iff.
  apply negb_true_iff in Hc. rewrite Hc, (IH Hs). reflexivity.
Qed.

Lemma text_lines_app s t :
  single_line s = true -> text_lines (s ++ String newline t) = s :: text_lines t.
Proof.
  unfold text_lines. induction s as [|c s IH].
  - intros _. change ("" ++ String newline t) with (String newline t).
    cbn [split_on]. now rewrite Ascii.eqb_refl.
  - cbn [single_line]. intros [Hc Hs]%andb_true_iff. apply negb_true_iff in Hc.
    change (String c s ++ String newline t) with (String c (s ++ String newline t)).
    cbn [split_on]. rewrite Hc, (IH Hs). reflexivity.
Qed.

(** Splitting undoes joining when no item holds a newline. *)
Lemma text_lines_join items :
  items <> [] ->
  forallb single_line items = true ->
  text_lines (join nl items) = items.
Proof.
  unfold join. induction items as [|x rest IH]; [congruence|]. intros _ Hall.
  cbn [forallb] in Hall. apply andb_true_iff in Hall as [Hx Hrest].
  destruct rest as [|y rest].
  - cbn [String.concat]. now apply text_lines_single.
  - change (String.concat nl (x :: y :: rest))
      with (x ++ String newline (String.concat nl (y :: rest))).
    rewrite (text_lines_app _ _ Hx), IH by (congruence || exact Hrest). reflexivity.
Qed.

Lemma single_line_pretty_N_go x : forall s,
  single_line s = true -> single_line (pretty_N_go x s) = true.
Proof.
  induction (N.lt_wf_0 x) as [x _ IH]; intros s Hs.
  destruct (N.eq_dec x 0) as [->|Hne]; [now rewrite pretty_N_go_0|].
  rewrite pretty_N_go_step by lia. apply IH; [apply N.div_lt; lia|].
  cbn [single_line]. rewrite Hs, andb_true_r.
  unfold pretty_N_char. repeat case_match; reflexivity.
Qed.

Lemma single_line_fmt_int n : single_line (fmt_int n) = true.
Proof.
  assert (HN : forall p, single_line (pretty (N.pos p)) = true).
  { intros p. unfold pretty, pretty_N. case_decide; [reflexivity|].
    now apply single_line_pretty_N_go. }
  unfold fmt_int, pretty, pretty_Z. destruct n as [|p|p]; [reflexivity|apply HN|].
  rewrite single_line_app. cbn [single_line]. apply HN.
Qed.








(** The depth counter moves by calls minus returns, whatever the order. *)
Lemma plain_final_depth_delta evs is_failure :
  plain_final_depth evs is_failure = depth_delta evs.
Proof. unfold plain_final_depth. rewrite plain_loop_spec. cbn. lia. Qed.

Lemma depth_delta_app evs1 evs2 :
  depth_delta (evs1 ++ evs2) = (depth_delta evs1 + depth_delta evs2)%Z.
Proof.
  induction evs1 as [|e rest IH]; [reflexivity|].
  destruct e; cbn [app depth_delta]; rewrite IH; lia.
Qed.

Lemma matched_delta evs : matched evs -> depth_delta evs = 0%Z.
Proof.
  induction 1 as [| ? ? ? ? ? _ IH | ? ? ? ? ? ? inner rest _ IHi _ IHr].
  - reflexivity.
  - exact IH.
  - cbn [depth_delta]. rewrite depth_delta_app. cbn [depth_delta]. lia.
Qed.

(** C7.  On an event log in which every call has its matching return, the
    depth counter of [_format_plain] is 0 again once the last event has been
    processed. *)
Theorem C7_matched_depth_zero evs is_failure :
  matched evs -> plain_final_depth evs is_failure = 0%Z.
Proof. intros H. rewrite plain_final_depth_delta. now apply matched_delta. Qed.

Lemma sample_log_matched : matched sample_log.
Proof.
  apply (matched_call _ _ _ "main.py" 7%Z "f"
           [EvCall "main.py" 6 "g"; EvReturn "main.py" 9 "g";
            EvException "main.py" 7 "f" (ValueError "bad")] []).
  - apply (matched_call _ _ _ "main.py" 9%Z "g" [] [EvException "main.py" 7 "f" (ValueError "bad")]).
    + constructor.
    + constructor. constructor.
  - constructor.
Defined.

Lemma C7_matched_depth_zero_witness :
  matched sample_log /\ plain_final_depth sample_log true = 0%Z.
Proof.
  split; [exact sample_log_matched|].
  apply (C7_matched_depth_zero sample_log true). exact sample_log_matched.
Defined.

(** ** The tree builder *)

Lemma py_last_nonempty {A} (l : list A) :
  (1 <= length l)%nat -> exists x, py_last l = Ok x.
Proof.
  intros Hlen. unfold py_last.
  destruct (last l) as [x|] eqn:Hlast; [eauto|].
  assert (Hsome : is_Some (last l)) by (apply last_is_Some; destruct l; [cbn in Hlen; lia | discriminate]).
  rewrite Hlast in Hsome. destruct Hsome as [? ?]. discriminate.
Qed.

Lemma removelast_length {A} (l : list A) :
  length (removelast l) = pred (length l).
Proof.
  rewrite removelast_firstn_len, length_take. lia.
Qed.

(** The loop invariant of [_build_tree]: the stack holds at least the root. *)
Lemma build_step_ok is_failure st e :
  (1 <= length (bs_stack st))%nat ->
  exists st', build_step is_failure st e = Ok st' /\ (1 <= length (bs_stack st'))%nat.
Proof.
  intros Hlen. destruct (py_last_nonempty _ Hlen) as [top Htop].
  destruct e as [path lineno func | path lineno func | path lineno func exc];
    unfold build_step.
  - rewrite Htop. cbn. eexists. split; [reflexivity|].
    cbn. rewrite length_app. cbn. lia.
  - destruct (Nat.ltb_spec 1 (length (bs_stack st))) as [Hgt|Hle].
    + rewrite Htop. cbn.
      destruct (bs_stack st) as [|h t] eqn:Hstack; [cbn in Hgt; lia|].
      cbn [py_pop bind]. eexists. split; [reflexivity|].
      cbn [bs_stack]. rewrite removelast_length. cbn [length] in *. lia.
    + eexists. split; [reflexivity | exact Hlen].
  - rewrite Htop. cbn. eexists. split; [reflexivity | exact Hlen].
Qed.

Lemma build_loop_ok is_failure evs : forall st,
  (1 <= length (bs_stack st))%nat ->
  exists st', build_loop is_failure evs st = Ok st' /\ (1 <= length (bs_stack st'))%nat.
Proof.
  induction evs as [|e rest IH]; intros st Hlen; cbn [build_loop].
  - eauto.
  - destruct (build_step_ok is_failure st e Hlen) as (st1 & -> & Hlen1).
    cbn [bind]. now apply IH.
Qed.

Lemma build_tree_ok ctx is_failure : exists tree, _build_tree ctx is_failure = Ok tree.
Proof.
  unfold _build_tree. destruct (events ctx) as [|first rest]; [eauto|].
  destruct (build_loop_ok is_failure rest (build_init first)) as (st & -> & _);
    [cbn; lia|].
  cbn. eauto.
Qed.

Lemma format_trace_ok ctx status is_failure :
  exists out, format_trace ctx status is_failure = Ok out.
Proof.
  unfold format_trace. destruct (use_rich ctx); cbn [negb]; [|eauto].
  destruct (build_tree_ok ctx is_failure) as [tree ->].
  destruct is_failure, (exception_info ctx); cbn; eauto.
Qed.

Lemma indent_collapses depth : (depth <= 0)%Z -> indent_of depth = "".
Proof.
  intros H. unfold indent_of, str_mul.
  replace (Z.to_nat depth) with 0%nat by lia. reflexivity.
Qed.

(** C8.  On every event log, well nested or not, [_build_tree] returns a
    tree: after every prefix of the events its stack still holds at least
    one handle, so neither [stack[-1]] nor [stack.pop()] raises; and
    [_format_plain] renders one line per event, with an empty indentation
    wherever unmatched returns have driven the depth to zero or below. *)
Theorem C8_formatters_tolerate_unmatched_returns (ctx : _TraceContext) (is_failure : bool) :
  (exists tree, _build_tree ctx is_failure = Ok tree)
  /\ (forall first rest seen todo,
        events ctx = first :: rest -> rest = (seen ++ todo)%list ->
        exists st, build_loop is_failure seen (build_init first) = Ok st
                   /\ (1 <= length (bs_stack st))%nat)
  /\ length (plain_lines ctx is_failure) = length (events ctx)
  /\ (forall seen e todo,
        events ctx = (seen ++ e :: todo)%list ->
        (depth_delta seen <= 0)%Z ->
        plain_lines ctx is_failure !! length seen
          = Some (fst (plain_step is_failure (depth_delta seen) e))
        /\ indent_of (depth_delta seen) = "").
Proof.
  split; [apply build_tree_ok|].
  split; [intros first rest seen todo _ _; apply build_loop_ok; cbn; lia|].
  split; [rewrite plain_lines_body; apply plain_body_length|].
  intros seen e todo Hev Hdepth. split; [|now apply indent_collapses].
  rewrite plain_lines_body, Hev, plain_body_app.
  rewrite lookup_app_r by (rewrite plain_body_length; lia).
  rewrite plain_body_length, Nat.sub_diag. reflexivity.
Qed.

(** A log that starts with returns nobody called for: the tree builder
    keeps its root on the stack and the plain lines are not indented. *)
Lemma C8_formatters_tolerate_unmatched_returns_witness :
  let ctx := mkCtx code_f None false true
               [EvCall "main.py" 5 "f"; EvReturn "main.py" 5 "f"; EvReturn "main.py" 30 "<module>"]
               None true (Some frame_f) in
  (exists st, build_loop true [EvReturn "main.py" 5 "f"; EvReturn "main.py" 30 "<module>"]
                (build_init (EvCall "main.py" 5 "f")) = Ok st
              /\ (1 <= length (bs_stack st))%nat)
  /\ plain_lines ctx true !! 2%nat = Some "↰ main.py (<module>)".
Proof.
  intros ctx.
  destruct (C8_formatters_tolerate_unmatched_returns ctx true) as (_ & Hstack & _ & Hplain).
  split.
  - apply (Hstack (EvCall "main.py" 5 "f")
             [EvReturn "main.py" 5 "f"; EvReturn "main.py" 30 "<module>"]
             [EvReturn "main.py" 5 "f"; EvReturn "main.py" 30 "<module>"] []);
      reflexivity.
  - destruct (Hplain [EvCall "main.py" 5 "f"; EvReturn "main.py" 5 "f"]
                (EvReturn "main.py" 30 "<module>") []) as [Hline _];
      [reflexivity | vm_compute; discriminate |].
    exact Hline.
Defined.

(** ** Failure reports without a recorded exception *)

(** C10.  When [format_trace] is asked for a failure report while the
    last-exception slot is empty, it presents the run like a success: in
    plain mode the header is [EXECUTION TRACE (no exception)], followed by
    the location of the first event when there is one, and the trailer still
    is [STATUS: FAIL]; in rich mode the panel has the green title, the green
    border and the subtitle [no exception]. *)
Theorem C10_failure_without_exception_info (ctx : _TraceContext) :
  exception_info ctx = None ->
  (use_rich ctx = false ->
     exists header,
       format_trace ctx "FAIL" true =
         Ok (FStr (join nl ([header; "=== BACKTRACE ==="] ++ plain_lines ctx true
                              ++ ["================="; "STATUS: FAIL"])%list))
       /\ match events ctx with
          | first :: _ =>
              header = "EXECUTION TRACE (no exception) at " ++ ev_path first ++ ":"
                         ++ fmt_int (ev_lineno first)
          | [] => header = "EXECUTION TRACE (no exception)"
          end)
  /\ (use_rich ctx = true ->
        exists tree,
          _build_tree ctx true = Ok tree
          /\ format_trace ctx "FAIL" true =
               Ok (FPanel (mkPanel (RTree tree) "[green bold]EXECUTION TRACE[/green bold]"
                                   "no exception" "green" (1, 2)%Z))).
Proof.
  intros Hnone. split; intros Hrich; unfold format_trace; rewrite Hrich; cbn [negb].
  - exists (plain_header ctx true). split.
    + reflexivity.
    + unfold plain_header. rewrite Hnone. destruct (events ctx); reflexivity.
  - destruct (build_tree_ok ctx true) as [tree Htree].
    exists tree. split; [exact Htree|].
    rewrite Hnone, Htree. reflexivity.
Qed.

Lemma C10_failure_without_exception_info_witness :
  (exists lines,
     format_trace (quiet_ctx false) "FAIL" true =
       Ok (FStr (join nl (["EXECUTION TRACE (no exception) at main.py:5"; "=== BACKTRACE ==="]
                            ++ lines ++ ["================="; "STATUS: FAIL"])%list)))
  /\ (exists tree,
        format_trace (quiet_ctx true) "FAIL" true =
          Ok (FPanel (mkPanel (RTree tree) "[green bold]EXECUTION TRACE[/green bold]"
                              "no exception" "green" (1, 2)%Z))).
Proof.
  split.
  - destruct (C10_failure_without_exception_info (quiet_ctx false) eq_refl) as [Hplain _].
    destruct (Hplain eq_refl) as (header & Hfmt & Hheader).
    exists (plain_lines (quiet_ctx false) true).
    cbn in Hheader. rewrite Hheader in Hfmt. exact Hfmt.
  - destruct (C10_failure_without_exception_info (quiet_ctx true) eq_refl) as [_ Hrich].
    destruct (Hrich eq_refl) as (tree & _ & Hfmt).
    exists tree. exact Hfmt.
Defined.

(** ** The output sink *)

Lemma output_trace_returns ctx out w :
  return_trace ctx = true ->
  output_trace ctx out w = (Ok (Some (to_str w out)), w).
Proof. intros H. unfold output_trace. now rewrite H. Qed.

Lemma output_trace_log_file ctx out w path :
  return_trace ctx = false ->
  truthy (log_file ctx) = Some path ->
  output_trace ctx out w =
    match open_errors w !! path with
    | Some err => (Raise err, w)
    | None =>
        (Ok None,
         set_files (<[path := default "" (files w !! path) ++ (to_str w out ++ nl)]> (files w)) w)
    end.
Proof.
  intros Hret Hlog. unfold output_trace, append_to_file. rewrite Hret, Hlog.
  destruct (open_errors w !! path); reflexivity.
Qed.

Lemma output_trace_console ctx out w :
  return_trace ctx = false ->
  truthy (log_file ctx) = None ->
  exists item,
    output_trace ctx out w = (Ok None, console_out item w)
    /\ files (console_out item w) = files w.
Proof.
  intros Hret Hlog. unfold output_trace. rewrite Hret, Hlog.
  destruct (use_rich ctx), out; eauto.
Qed.

Lemma output_trace_hook ctx out w :
  trace_hook (snd (output_trace ctx out w)) = trace_hook w.
Proof.
  unfold output_trace, append_to_file.
  destruct (return_trace ctx); [reflexivity|].
  destruct (truthy (log_file ctx)) as [path|].
  - destruct (open_errors w !! path); reflexivity.
  - destruct (use_rich ctx), out; reflexivity.
Qed.

(** ** The wrapping combinator *)

Lemma trace_func_config env ctx frame event :
  log_file (trace_func env ctx frame event) = log_file ctx
  /\ return_trace (trace_func env ctx frame event) = return_trace ctx
  /\ use_rich (trace_func env ctx frame event) = use_rich ctx.
Proof.
  unfold trace_func.
  destruct (_should_trace env _); cbn [negb]; [|auto].
  destruct (negb (started ctx) && code_eqb (f_code frame) (target_code ctx)) eqn:Hgate.
  - cbn. destruct event; cbn; auto.
    destruct (call_location env _ frame); cbn; auto.
  - destruct (started ctx); cbn [negb]; [|auto].
    destruct event; cbn; auto.
    destruct (call_location env ctx frame); cbn; auto.
Qed.

Lemma feed_config env deliveries : forall ctx,
  log_file (feed env ctx deliveries) = log_file ctx
  /\ return_trace (feed env ctx deliveries) = return_trace ctx
  /\ use_rich (feed env ctx deliveries) = use_rich ctx.
Proof.
  unfold feed. induction deliveries as [|d ds IH]; intros ctx; cbn [foldl]; [auto|].
  destruct (IH (trace_func env ctx (fst d) (snd d))) as (-> & -> & ->).
  apply trace_func_config.
Qed.

Lemma emit_hook ctx status is_failure pending run :
  trace_hook (run_world (emit ctx status is_failure pending run))
    = trace_hook (run_world run).
Proof.
  unfold emit. destruct (format_trace ctx status is_failure) as [out|err]; [|reflexivity].
  pose proof (output_trace_hook ctx out (run_world run)) as Hhook.
  destruct (output_trace ctx out (run_world run)) as [[returned|err] w']; exact Hhook.
Qed.

(** C2.  Whatever the traced callable does (return, raise, replace the hook
    itself) and whatever the sink does, the call of [wrapper] ends with the
    trace hook holding the value it held when [wrapper] was entered. *)
Theorem C2_trace_hook_restored env cfg func args (w : World) :
  trace_hook (run_world (wrapper env cfg func args w)) = trace_hook w.
Proof.
  unfold wrapper.
  destruct (fn_call func args _) as [[deliveries outcome] w'].
  cbv zeta.
  match goal with
  | |- context [match ?x with Some _ => _ | None => _ end] => destruct x
  end.
  - rewrite emit_hook. reflexivity.
  - reflexivity.
Qed.

(** A hook installed by another tool is put back, not cleared. *)
Example foreign_hook_survives :
  trace_hook (run_world (wrapper posix_env log_to_locked_file raising_f [] locked_world))
    = Some (ForeignTracer 7).
Proof. vm_compute. reflexivity. Qed.

(** What one emission does, by destination. *)
Lemma emit_spec ctx status is_failure pending run :
  exists out,
    format_trace ctx status is_failure = Ok out
    /\ run_reports (emit ctx status is_failure pending run)
       = (run_reports run ++ [mkReport status is_failure out])%list
    /\ (return_trace ctx = true ->
        emit ctx status is_failure pending run =
          mkRun pending (run_world run)
                (run_reports run ++ [mkReport status is_failure out])
                (run_sink_returns run ++ [Some (to_str (run_world run) out)]))
    /\ (return_trace ctx = false ->
        (forall path, truthy (log_file ctx) = Some path ->
                      open_errors (run_world run) !! path = None) ->
        run_outcome (emit ctx status is_failure pending run) = pending)
    /\ (return_trace ctx = false ->
        forall path err,
          truthy (log_file ctx) = Some path ->
          open_errors (run_world run) !! path = Some err ->
          run_outcome (emit ctx status is_failure pending run) = Raise err).
Proof.
  destruct (format_trace_ok ctx status is_failure) as [out Hout].
  exists out. split; [exact Hout|]. unfold emit. rewrite Hout.
  split; [destruct (output_trace ctx out (run_world run)) as [[?|?] ?]; reflexivity|].
  split; [intros Hret; now rewrite (output_trace_returns _ _ _ Hret)|].
  split.
  - intros Hret Hopen.
    destruct (truthy (log_file ctx)) as [path|] eqn:Hlog.
    + rewrite (output_trace_log_file _ _ _ _ Hret Hlog), (Hopen path eq_refl). reflexivity.
    + destruct (output_trace_console ctx out (run_world run) Hret Hlog) as (item & -> & _).
      reflexivity.
  - intros Hret path err Hlog Herr.
    rewrite (output_trace_log_file _ _ _ _ Hret Hlog), Herr. reflexivity.
Qed.

Lemma output_trace_on_std ctx out w :
  output_trace_on std_device ctx out w = output_trace ctx out w.
Proof.
  unfold output_trace_on, output_trace. cbn [std_device dev_append dev_print dev_console_print].
  destruct (return_trace ctx); [reflexivity|].
  destruct (truthy (log_file ctx)); [reflexivity|].
  destruct (use_rich ctx), out; reflexivity.
Qed.

Lemma emit_on_std ctx status is_failure pending run :
  emit_on std_device ctx status is_failure pending run = emit ctx status is_failure pending run.
Proof.
  unfold emit_on, emit. destruct (format_trace ctx status is_failure); [|reflexivity].
  now rewrite output_trace_on_std.
Qed.

(** The wrapper of the standard device is [wrapper]. *)
Lemma wrapper_on_std env cfg func args w :
  wrapper_on std_device env cfg func args w = wrapper env cfg func args w.
Proof.
  unfold wrapper_on, wrapper.
  destruct (fn_call func args _) as [[deliveries outcome] w'].
  destruct outcome as [result|exc]; [destruct (cfg_trace_on_success cfg)|];
    cbn [std_device dev_traced feed foldl]; rewrite ?emit_on_std;
    repeat match goal with
           | |- context [match ?x with Some _ => _ | None => _ end] => destruct x
           end;
    rewrite ?emit_on_std; reflexivity.
Qed.

(** C1, as amended.  When the traced callable raises, [wrapper] formats
    exactly one report, a [FAIL] report made from the context of the run,
    and hands it to the sink in one call, made after the hook has been
    restored, with no [PASS] report before it; and provided that call
    returns (it raises neither on opening or writing the log file nor on
    printing), the exception that leaves [wrapper] is the one the callable
    raised, with its type and message.  This holds on every device. *)
Theorem C1_one_fail_report_and_original_exception
    dev env cfg func args (w : World) deliveries exc w' :
  fn_call func args (settrace (Some (ContextTracer (fn_code func))) w)
    = (deliveries, Raise exc, w') ->
  exists out,
    format_trace (context_of_run env cfg func deliveries) "FAIL" true = Ok out
    /\ run_reports (wrapper_on dev env cfg func args w) = [mkReport "FAIL" true out]
    /\ run_world (wrapper_on dev env cfg func args w)
       = snd (output_trace_on dev (context_of_run env cfg func deliveries) out
                              (settrace (trace_hook w) w'))
    /\ (forall returned,
          fst (output_trace_on dev (context_of_run env cfg func deliveries) out
                               (settrace (trace_hook w) w')) = Ok returned ->
          run_outcome (wrapper_on dev env cfg func args w) = Raise exc).
Proof.
  intros Hcall. unfold wrapper_on. rewrite Hcall. cbv zeta.
  cbn [run_outcome run_world run_reports run_sink_returns].
  fold (context_of_run env cfg func deliveries).
  destruct (format_trace_ok (context_of_run env cfg func deliveries) "FAIL" true)
    as [out Hout].
  exists out. split; [exact Hout|]. unfold emit_on. rewrite Hout.
  cbn [run_outcome run_world run_reports run_sink_returns].
  destruct (output_trace_on dev _ out _) as [[returned|err] w1]; cbn [fst snd];
    repeat split; try reflexivity.
  intros returned. discriminate.
Qed.

Lemma C1_one_fail_report_and_original_exception_witness :
  (exists out,
     run_reports (wrapper posix_env print_plain raising_f [] locked_world)
       = [mkReport "FAIL" true out])
  /\ run_outcome (wrapper posix_env print_plain raising_f [] locked_world)
     = Raise (ValueError "bad").
Proof.
  rewrite <- (wrapper_on_std posix_env print_plain raising_f [] locked_world).
  destruct (C1_one_fail_report_and_original_exception std_device posix_env print_plain
              raising_f [] locked_world _ _ _ eq_refl) as (out & _ & Hone & _ & Horig).
  split; [exists out; exact Hone|]. eapply Horig. vm_compute. reflexivity.
Defined.

(** C1, as stated, fails when the sink raises: with a log file that cannot
    be opened, the callable raises [ValueError("bad")] and what leaves
    [wrapper] is the [PermissionError] of [open]. *)
Lemma C1_counterexample :
  snd (fst (fn_call raising_f []
              (settrace (Some (ContextTracer (fn_code raising_f))) locked_world)))
    = Raise (ValueError "bad")
  /\ run_outcome (wrapper posix_env log_to_locked_file raising_f [] locked_world)
     = Raise (PermissionError "[Errno 13] Permission denied: '/var/log/trace.log'")
  /\ run_outcome (wrapper posix_env log_to_locked_file raising_f [] locked_world)
     <> Raise (ValueError "bad").
Proof. vm_compute. repeat split. discriminate. Qed.

(** On a console that is closed the error of [print] leaves [wrapper] in
    place of the callable's exception, as the error of [open] does. *)
Example print_error_masks_the_exception :
  run_outcome (wrapper_on closed_console posix_env print_plain raising_f [] empty_world)
  = Raise (mkExc "ValueError" "I/O operation on closed file.").
Proof. vm_compute. reflexivity. Qed.

(** With [return_trace] set, a call of [wrapper] ends as the traced callable
    ended and touches neither files nor console: each report comes back from
    [output_trace] as a string, and [wrapper] keeps none of them. *)
Lemma wrapper_return_trace env cfg func args (w : World) deliveries outcome w' :
  cfg_return_trace cfg = true ->
  fn_call func args (settrace (Some (ContextTracer (fn_code func))) w)
    = (deliveries, outcome, w') ->
  run_outcome (wrapper env cfg func args w) = outcome
  /\ files (run_world (wrapper env cfg func args w)) = files w'
  /\ console (run_world (wrapper env cfg func args w)) = console w'
  /\ Forall is_Some (run_sink_returns (wrapper env cfg func args w))
  /\ length (run_sink_returns (wrapper env cfg func args w))
     = length (run_reports (wrapper env cfg func args w)).
Proof.
  intros Hcfg Hcall. unfold wrapper. rewrite Hcall. cbv zeta.
  set (ctx := feed env _ deliveries).
  destruct (feed_config env deliveries
              (new_context (fn_code func) (cfg_log_file cfg) (cfg_return_trace cfg)
                           (cfg_use_rich cfg))) as (_ & Hret & _).
  fold ctx in Hret. cbn in Hret. rewrite Hcfg in Hret.
  assert (Hemit : forall status is_failure pending run,
             exists s, emit ctx status is_failure pending run =
                       mkRun pending (run_world run)
                             (run_reports run ++ [mkReport status is_failure s])
                             (run_sink_returns run ++ [Some (to_str (run_world run) s)])).
  { intros status is_failure pending run.
    destruct (emit_spec ctx status is_failure pending run) as (out & _ & _ & Hreturned & _).
    exists out. now apply Hreturned. }
  destruct outcome as [result|exc].
  - destruct (cfg_trace_on_success cfg).
    + destruct (Hemit "PASS" false (Ok result) (mkRun (Ok result) w' [] [])) as [s ->].
      cbn. destruct (handled_exc w'); [step_emit Hemit|]; finish_run.
    + cbn. destruct (handled_exc w'); [step_emit Hemit|]; finish_run.
  - cbn. step_emit Hemit. finish_run.
Qed.

(** C3, at its failing input.  [trace_calls(return_trace=True,
    use_rich=False)] around a function that returns [42]: [output_trace]
    hands the report back to [wrapper], nothing is written or printed, and
    the caller of the instrumented call receives [42], not the report. *)
Theorem C3_wrapper_drops_the_returned_trace :
  let report :=
    join nl ["EXECUTION TRACE (no exception) at main.py:5"; "=== BACKTRACE ===";
             "↳ main.py:5 (f)"; "    ↳ main.py:6 (g)"; "    ↰ main.py (g)"; "↰ main.py (f)";
             "================="; "STATUS: PASS"] in
  let run := wrapper posix_env return_plain returning_f [] empty_world in
  run_sink_returns run = [Some report]
  /\ run_outcome run = Ok (VInt 42)
  /\ run_outcome run <> Ok (VStr report)
  /\ files (run_world run) = ∅
  /\ console (run_world run) = [].
Proof. vm_compute. repeat split. discriminate. Qed.

(** ** The warning reporter *)

Lemma prefix_chars needle : forall hay c,
  String.prefix needle hay = true ->
  In c (String.list_ascii_of_string needle) -> In c (String.list_ascii_of_string hay).
Proof.
  induction needle as [|a needle IH]; intros hay c Hp Hin; [destruct Hin|].
  destruct hay as [|b hay]; [discriminate|].
  cbn in Hp. destruct (Ascii.ascii_dec a b) as [->|]; [|discriminate].
  cbn in *. destruct Hin as [->|Hin]; [now left | right; eauto].
Qed.

(** A substring brings all its characters. *)
Lemma str_in_chars needle hay : forall c,
  str_in needle hay = true ->
  In c (String.list_ascii_of_string needle) -> In c (String.list_ascii_of_string hay).
Proof.
  induction hay as [|b hay IH]; intros c Hin Hc.
  - cbn in Hin. rewrite orb_false_r in Hin. eapply prefix_chars; eauto.
  - cbn [str_in] in Hin. apply orb_true_iff in Hin as [Hp|Hrest].
    + eapply prefix_chars; eauto.
    + cbn. right. eauto.
Qed.

Lemma hex_digits_uint d :
  Forall hex_digit (String.list_ascii_of_string (NilEmpty.string_of_uint d)).
Proof.
  induction d; cbn; constructor; try assumption; unfold hex_digit; cbn; tauto.
Qed.

Lemma hex_digits n : Forall hex_digit (String.list_ascii_of_string (hex n)).
Proof.
  unfold hex, NilZero.string_of_uint.
  destruct (N.to_hex_uint n) eqn:E; try (rewrite <- E; apply hex_digits_uint).
  cbn. constructor; [unfold hex_digit; cbn; tauto | constructor].
Qed.

Lemma chars_app s1 s2 :
  String.list_ascii_of_string (s1 ++ s2) =
  (String.list_ascii_of_string s1 ++ String.list_ascii_of_string s2)%list.
Proof.
  induction s1 as [|c s1 IH]; [reflexivity|].
  change (String c s1 ++ s2) with (String c (s1 ++ s2)).
  cbn [String.list_ascii_of_string app]. now rewrite IH.
Qed.

(** No letter outside [a-f] occurs in an address followed by [>]. *)
Lemma not_in_hex_tail c n :
  ~ hex_digit c -> c <> ">"%char ->
  ~ In c (String.list_ascii_of_string (hex n ++ ">")).
Proof.
  intros Hc Hgt Hin. rewrite chars_app in Hin. apply in_app_or in Hin as [Hin|Hin].
  - pose proof (hex_digits n) as Hall. rewrite Forall_forall in Hall.
    apply Hc, Hall, list_elem_of_In, Hin.
  - cbn in Hin. destruct Hin as [<-|[]]. now apply Hgt.
Qed.

Lemma object_str_lacks_warning addr :
  str_in "WARNING: UserWarning" (object_str "rich.panel.Panel" addr) = false
  /\ str_in "deprecated" (object_str "rich.panel.Panel" addr) = false.
Proof.
  unfold object_str.
  change ("<" ++ "rich.panel.Panel" ++ " object at 0x" ++ hex addr ++ ">")
    with ("<rich.panel.Panel object at 0x" ++ (hex addr ++ ">")).
  split.
  - change (str_in "WARNING: UserWarning" ("<rich.panel.Panel object at 0x" ++ (hex addr ++ ">")))
      with (str_in "WARNING: UserWarning" (hex addr ++ ">")).
    destruct (str_in "WARNING: UserWarning" (hex addr ++ ">")) eqn:Hin; [|reflexivity].
    exfalso. apply (not_in_hex_tail "W"%char addr).
    + unfold hex_digit. cbn. intuition discriminate.
    + discriminate.
    + apply (str_in_chars _ _ _ Hin). cbn. auto.
  - change (str_in "deprecated" ("<rich.panel.Panel object at 0x" ++ (hex addr ++ ">")))
      with (str_in "deprecated" (hex addr ++ ">")).
    destruct (str_in "deprecated" (hex addr ++ ">")) eqn:Hin; [|reflexivity].
    exfalso. apply (not_in_hex_tail "p"%char addr).
    + unfold hex_digit. cbn. intuition discriminate.
    + discriminate.
    + apply (str_in_chars _ _ _ Hin). cbn. auto.
Qed.

Lemma prefix_append s t : String.prefix s (s ++ t) = true.
Proof.
  induction s as [|c s IH]; [destruct t; reflexivity|].
  change (String c s ++ t) with (String c (s ++ t)). cbn [String.prefix].
  destruct (Ascii.ascii_dec c c); [exact IH | congruence].
Qed.

(** In plain mode the returned report names the warning and its message. *)
Lemma log_warning_plain_report env log_file frame w :
  exists report,
    log_warning env (UserWarning "deprecated") log_file true false frame w
      = (Ok (Some report), w)
    /\ str_in "WARNING: UserWarning" report = true
    /\ str_in "deprecated" report = true.
Proof. eexists. split; [reflexivity|]. split; reflexivity. Qed.

(** C9, at its failing input.  [log_warning(UserWarning("deprecated"),
    return_trace=True)], with [use_rich] at its default: the string returned
    is [str(panel)], the default representation of the [Panel] object, which
    contains neither [WARNING: UserWarning] nor [deprecated], whatever the
    address of the object. *)
Theorem C9_rich_warning_report_is_the_object_repr env log_file frame (w : World) :
  exists report,
    log_warning env (UserWarning "deprecated") log_file true true frame w
      = (Ok (Some report), w)
    /\ String.prefix "<rich.panel.Panel object at 0x" report = true
    /\ str_in "WARNING: UserWarning" report = false
    /\ str_in "deprecated" report = false.
Proof.
  eexists. split; [reflexivity|]. split; [|apply object_str_lacks_warning].
  apply (prefix_append "<rich.panel.Panel object at 0x").
Qed.

(** * Further properties *)

(** ** Name resolution *)

Lemma find_binding_spec code items :
  (exists before name value after,
      items = (before ++ (name, value) :: after)%list
      /\ Forall (fun item => matches_code code (snd item) = false) before
      /\ matches_code code value = true
      /\ find_binding code items = Some name)
  \/ (Forall (fun item => matches_code code (snd item) = false) items
      /\ find_binding code items = None).
Proof.
  induction items as [|[name value] rest IH]; [right; split; [constructor | reflexivity]|].
  cbn [find_binding]. destruct (matches_code code value) eqn:Hm.
  - left. exists [], name, value, rest. repeat split; auto.
  - destruct IH as [(before & n & v & after & -> & Hbefore & Hv & Hfind) | [Hall Hfind]].
    + left. exists ((name, value) :: before), n, v, after.
      repeat split; auto.
    + right. split; [constructor; auto | exact Hfind].
Qed.

(** X1.  [_get_function_name] answers the code's own name for every frame
    but module-level ones; for a [<module>] frame it answers the name of the
    first local binding, in the order of the dictionary, that is a function
    built from the frame's code, and [<module>] when there is none. *)
Theorem X1_function_name_resolution frame :
  (co_name (f_code frame) <> "<module>" ->
     _get_function_name frame = co_name (f_code frame))
  /\ (co_name (f_code frame) = "<module>" ->
      (exists before name value after,
          f_locals frame = (before ++ (name, value) :: after)%list
          /\ Forall (fun item => matches_code (f_code frame) (snd item) = false) before
          /\ matches_code (f_code frame) value = true
          /\ _get_function_name frame = name)
      \/ (Forall (fun item => matches_code (f_code frame) (snd item) = false)
                 (f_locals frame)
          /\ _get_function_name frame = "<module>")).
Proof.
  unfold _get_function_name. cbv zeta. split.
  - intros Hne. destruct (String.eqb_spec (co_name (f_code frame)) "<module>"); congruence.
  - intros Heq. rewrite Heq. cbn [String.eqb Ascii.eqb Bool.eqb].
    destruct (find_binding_spec (f_code frame) (f_locals frame))
      as [(before & n & v & after & Hsplit & Hbefore & Hv & ->) | [Hall ->]].
    + left. exists before, n, v, after. auto.
    + right. auto.
Qed.

Lemma X1_function_name_resolution_witness :
  _get_function_name frame_g = "g"
  /\ _get_function_name frame_module_bound = "entry".
Proof.
  destruct (X1_function_name_resolution frame_g) as [Hnamed _].
  destruct (X1_function_name_resolution frame_module_bound) as [_ Hmodule].
  split.
  - apply Hnamed. discriminate.
  - destruct (Hmodule eq_refl) as [(before & n & v & after & _ & _ & _ & Hname) | [Hall _]].
    + vm_compute. reflexivity.
    + exfalso. vm_compute in Hall.
      inversion Hall as [|? ? _ Htail]. inversion Htail as [|? ? Hentry _].
      discriminate Hentry.
Defined.

(** ** The intake state machine *)

Lemma trace_func_waiting env ctx frame event :
  started ctx = false ->
  ignored_while_waiting env ctx (frame, event) ->
  trace_func env ctx frame event = ctx.
Proof.
  intros Hst [Hfile|Hcode]; cbn [fst] in *.
  - now apply trace_func_untraceable.
  - unfold trace_func. destruct (_should_trace env _); cbn [negb]; [|reflexivity].
    rewrite Hst, Hcode. cbn. now rewrite Hst.
Qed.

Lemma feed_ignored env ctx deliveries :
  started ctx = false ->
  Forall (ignored_while_waiting env ctx) deliveries ->
  feed env ctx deliveries = ctx.
Proof.
  intros Hst Hall. unfold feed.
  induction Hall as [|[frame event] ds Hd _ IH]; [reflexivity|].
  cbn [foldl fst snd]. now rewrite (trace_func_waiting env ctx frame event Hst Hd).
Qed.

(** X2.  As long as the context waits, every event whose file is filtered
    out or whose code is not the target's leaves it untouched: a run made of
    such events only records nothing and does not start the recording. *)
Theorem X2_nothing_recorded_while_waiting env ctx deliveries :
  started ctx = false ->
  Forall (ignored_while_waiting env ctx) deliveries ->
  feed env ctx deliveries = ctx.
Proof. apply feed_ignored. Qed.

Lemma X2_nothing_recorded_while_waiting_witness :
  feed posix_env (new_context code_f None false false)
       [(frame_main, RawLine); (frame_g, RawCall); (frame_g, RawReturn)]
  = new_context code_f None false false.
Proof.
  apply (X2_nothing_recorded_while_waiting posix_env (new_context code_f None false false)).
  - reflexivity.
  - repeat (constructor; [right; vm_compute; reflexivity|]). constructor.
Defined.

Lemma gate_opens env ctx frame event :
  started ctx = false ->
  _should_trace env (co_filename (f_code frame)) = true ->
  code_eqb (f_code frame) (target_code ctx) = true ->
  started (trace_func env ctx frame event) = true
  /\ root_frame (trace_func env ctx frame event) = Some frame.
Proof.
  intros Hst Htr Hcode. unfold trace_func. rewrite Htr, Hst, Hcode. cbn.
  destruct event; cbn; try (destruct (call_location env _ frame)); cbn; auto.
Qed.

(** X3.  The gate looks at the code only, not at the kind of event: the
    first event of a traceable frame running the target's code starts the
    recording and makes that frame the root frame, be it a ['call'], a
    ['line'], a ['return'] or an ['exception'] event; a ['line'] or
    ['opcode'] event that opens the gate still records nothing. *)
Theorem X3_gate_opens_on_any_event env ctx frame event :
  started ctx = false ->
  _should_trace env (co_filename (f_code frame)) = true ->
  code_eqb (f_code frame) (target_code ctx) = true ->
  started (trace_func env ctx frame event) = true
  /\ root_frame (trace_func env ctx frame event) = Some frame
  /\ (event = RawLine \/ event = RawOpcode ->
      events (trace_func env ctx frame event) = events ctx).
Proof.
  intros Hst Htr Hcode. unfold trace_func. rewrite Htr, Hst, Hcode. cbn.
  destruct event; cbn; try (destruct (call_location env _ frame)); cbn;
    repeat split; auto; intros [?|?]; discriminate.
Qed.

Lemma X3_gate_opens_on_any_event_witness :
  started (trace_func posix_env (new_context code_f None false false) frame_f RawLine) = true
  /\ events (trace_func posix_env (new_context code_f None false false) frame_f RawLine) = [].
Proof.
  destruct (X3_gate_opens_on_any_event posix_env (new_context code_f None false false)
              frame_f RawLine) as (Hstarted & _ & Hquiet);
    [reflexivity | vm_compute; reflexivity | vm_compute; reflexivity |].
  split; [exact Hstarted | apply Hquiet; left; reflexivity].
Defined.

Lemma trace_func_started env ctx frame event :
  started ctx = true ->
  started (trace_func env ctx frame event) = true
  /\ root_frame (trace_func env ctx frame event) = root_frame ctx.
Proof.
  intros Hst. unfold trace_func. destruct (_should_trace env _); cbn [negb]; [|auto].
  rewrite Hst. cbn. rewrite Hst.
  destruct event; cbn; try (destruct (call_location env ctx frame)); cbn; auto.
Qed.

Lemma trace_func_target env ctx frame event :
  target_code (trace_func env ctx frame event) = target_code ctx.
Proof.
  unfold trace_func. destruct (_should_trace env _); cbn [negb]; [|auto].
  destruct (negb (started ctx) && code_eqb (f_code frame) (target_code ctx)).
  - cbn. destruct event; cbn; try (destruct (call_location env _ frame)); reflexivity.
  - destruct (started ctx); cbn [negb]; [|reflexivity].
    destruct event; cbn; try (destruct (call_location env ctx frame)); reflexivity.
Qed.

(** X4.  Once started a context stays started for the rest of the run, and
    its root frame and its target are never replaced: a later frame running
    the same code (a recursive call) does not become the root. *)
Theorem X4_root_frame_is_captured_once env deliveries : forall ctx,
  started ctx = true ->
  started (feed env ctx deliveries) = true
  /\ root_frame (feed env ctx deliveries) = root_frame ctx
  /\ target_code (feed env ctx deliveries) = target_code ctx.
Proof.
  unfold feed. induction deliveries as [|[frame event] ds IH]; intros ctx Hst; [auto|].
  cbn [foldl fst snd].
  destruct (trace_func_started env ctx frame event Hst) as [Hst' Hroot'].
  destruct (IH _ Hst') as (-> & -> & ->).
  rewrite Hroot', trace_func_target. auto.
Qed.

Lemma X4_root_frame_is_captured_once_witness :
  root_frame (feed posix_env (sample_ctx false)
                [(mkFrame 40 code_f 5 [] (Some frame_f), RawCall)])
  = Some frame_f.
Proof.
  destruct (X4_root_frame_is_captured_once posix_env
              [(mkFrame 40 code_f 5 [] (Some frame_f), RawCall)] (sample_ctx false) eq_refl)
    as (_ & Hroot & _).
  exact Hroot.
Defined.

Lemma trace_func_events env ctx frame event :
  events (trace_func env ctx frame event) = events ctx
  \/ exists e, events (trace_func env ctx frame event) = (events ctx ++ [e])%list.
Proof.
  unfold trace_func. destruct (_should_trace env _); cbn [negb]; [|auto].
  destruct (negb (started ctx) && code_eqb (f_code frame) (target_code ctx)).
  - cbn. destruct event; cbn; try (destruct (call_location env _ frame)); cbn; eauto.
  - destruct (started ctx); cbn [negb]; [|auto].
    destruct event; cbn; try (destruct (call_location env ctx frame)); cbn; eauto.
Qed.

Lemma trace_func_silent_events env ctx frame event :
  event = RawLine \/ event = RawOpcode ->
  events (trace_func env ctx frame event) = events ctx
  /\ exception_info (trace_func env ctx frame event) = exception_info ctx.
Proof.
  intros Hev. unfold trace_func. destruct (_should_trace env _); cbn [negb]; [|auto].
  destruct (negb (started ctx) && code_eqb (f_code frame) (target_code ctx));
    [cbn | destruct (started ctx); cbn [negb]; [|auto]];
    destruct Hev as [-> | ->]; auto.
Qed.

(** X5.  The event log is append-only: a run leaves every event recorded
    before it in place and adds at most one event per call of the hook. *)
Theorem X5_event_log_is_append_only env deliveries : forall ctx,
  exists added,
    events (feed env ctx deliveries) = (events ctx ++ added)%list
    /\ (length added <= length deliveries)%nat.
Proof.
  unfold feed. induction deliveries as [|[frame event] ds IH]; intros ctx.
  - exists []. split; [now rewrite app_nil_r | reflexivity].
  - cbn [foldl fst snd].
    destruct (IH (trace_func env ctx frame event)) as (added & -> & Hlen).
    destruct (trace_func_events env ctx frame event) as [-> | [e ->]].
    + exists added. split; [reflexivity | cbn; lia].
    + exists (e :: added). split; [now rewrite <- app_assoc | cbn; lia].
Qed.

Lemma trace_func_return_exception env ctx frame :
  _should_trace env (co_filename (f_code frame)) = true ->
  started ctx = true \/ code_eqb (f_code frame) (target_code ctx) = true ->
  let rel_path := _get_relative_path env (co_filename (f_code frame)) in
  let func_name := _get_function_name frame in
  (events (trace_func env ctx frame RawReturn)
     = (events ctx ++ [EvReturn rel_path (f_lineno frame) func_name])%list
   /\ exception_info (trace_func env ctx frame RawReturn) = exception_info ctx)
  /\ (forall exc,
        events (trace_func env ctx frame (RawException exc))
          = (events ctx ++ [EvException rel_path (f_lineno frame) func_name exc])%list
        /\ exception_info (trace_func env ctx frame (RawException exc))
           = Some (mkExcInfo exc rel_path (f_lineno frame) func_name)).
Proof.
  intros Htr Hgate. unfold trace_func. rewrite Htr. cbn [negb].
  destruct (started ctx) eqn:Hst; cbn [negb andb].
  - rewrite Hst. cbn. auto.
  - destruct Hgate as [Hgate|Hgate]; [discriminate|]. rewrite Hgate. cbn. auto.
Qed.

(** X6.  Once recording is active, a ['return'] event of a traceable frame,
    the root frame included, appends one return event at the frame's own
    path and line and leaves the exception slot alone; an ['exception']
    event appends one exception event there and overwrites the exception
    slot with it, whatever the slot held. *)
Theorem X6_return_and_exception_intake env ctx frame :
  _should_trace env (co_filename (f_code frame)) = true ->
  started ctx = true \/ code_eqb (f_code frame) (target_code ctx) = true ->
  (events (trace_func env ctx frame RawReturn)
     = (events ctx ++ [EvReturn (_get_relative_path env (co_filename (f_code frame)))
                                (f_lineno frame) (_get_function_name frame)])%list
   /\ exception_info (trace_func env ctx frame RawReturn) = exception_info ctx)
  /\ (forall exc,
        events (trace_func env ctx frame (RawException exc))
          = (events ctx ++ [EvException (_get_relative_path env (co_filename (f_code frame)))
                                        (f_lineno frame) (_get_function_name frame) exc])%list
        /\ exception_info (trace_func env ctx frame (RawException exc))
           = Some (mkExcInfo exc (_get_relative_path env (co_filename (f_code frame)))
                             (f_lineno frame) (_get_function_name frame))).
Proof. intros Htr Hgate. exact (trace_func_return_exception env ctx frame Htr Hgate). Qed.

Lemma X6_return_and_exception_intake_witness :
  events (trace_func posix_env (quiet_ctx false) frame_f RawReturn)
    = (events (quiet_ctx false) ++ [EvReturn "main.py" 5 "f"])%list
  /\ exception_info (trace_func posix_env (sample_ctx false) frame_g
                       (RawException (mkExc "KeyError" "'k'")))
     = Some (mkExcInfo (mkExc "KeyError" "'k'") "main.py" 9 "g").
Proof.
  split.
  - destruct (X6_return_and_exception_intake posix_env (quiet_ctx false) frame_f)
      as [[Hret _] _]; [vm_compute; reflexivity | left; reflexivity |].
    exact Hret.
  - destruct (X6_return_and_exception_intake posix_env (sample_ctx false) frame_g)
      as [_ Hexc]; [vm_compute; reflexivity | left; reflexivity |].
    destruct (Hexc (mkExc "KeyError" "'k'")) as [_ Hslot]. exact Hslot.
Defined.

Lemma last_exception_snoc evs e :
  last_exception (evs ++ [e]) =
  match e with
  | EvException path lineno func exc => Some (mkExcInfo exc path lineno func)
  | _ => last_exception evs
  end.
Proof.
  induction evs as [|x xs IH]; cbn [app last_exception].
  - destruct e; reflexivity.
  - rewrite IH. destruct e; reflexivity.
Qed.

(** The invariant of a context fed by [trace_func] only. *)
Lemma trace_func_slot env ctx frame event :
  exception_info ctx = last_exception (events ctx) ->
  exception_info (trace_func env ctx frame event)
    = last_exception (events (trace_func env ctx frame event)).
Proof.
  intros Hinv. unfold trace_func. destruct (_should_trace env _); cbn [negb]; [|auto].
  destruct (negb (started ctx) && code_eqb (f_code frame) (target_code ctx)).
  - cbn. destruct event; cbn; try (destruct (call_location env _ frame)); cbn;
      rewrite ?last_exception_snoc; auto.
  - destruct (started ctx); cbn [negb]; [|auto].
    destruct event; cbn; try (destruct (call_location env ctx frame)); cbn;
      rewrite ?last_exception_snoc; auto.
Qed.

Lemma feed_slot env deliveries : forall ctx,
  exception_info ctx = last_exception (events ctx) ->
  exception_info (feed env ctx deliveries) = last_exception (events (feed env ctx deliveries)).
Proof.
  unfold feed. induction deliveries as [|[frame event] ds IH]; intros ctx Hinv; [exact Hinv|].
  cbn [foldl fst snd]. apply IH. now apply trace_func_slot.
Qed.

(** X7.  In the context of a traced call the exception slot always is the
    last exception event of the log, with its exception, path, line and
    function: it is empty exactly when the log holds no exception event,
    and with several exceptions the last one wins. *)
Theorem X7_exception_slot_is_last_exception_event
    env target lf rt ur deliveries :
  exception_info (feed env (new_context target lf rt ur) deliveries)
    = last_exception (events (feed env (new_context target lf rt ur) deliveries)).
Proof. apply feed_slot. reflexivity. Qed.

(** What holds of a context between two calls of the hook. *)
Lemma trace_func_gate_invariant env ctx frame event :
  (started ctx = false ->
     events ctx = [] /\ exception_info ctx = None /\ root_frame ctx = None) ->
  (started ctx = true ->
     exists root, root_frame ctx = Some root
                  /\ code_eqb (f_code root) (target_code ctx) = true
                  /\ _should_trace env (co_filename (f_code root)) = true) ->
  (started (trace_func env ctx frame event) = false ->
     events (trace_func env ctx frame event) = []
     /\ exception_info (trace_func env ctx frame event) = None
     /\ root_frame (trace_func env ctx frame event) = None)
  /\ (started (trace_func env ctx frame event) = true ->
      exists root, root_frame (trace_func env ctx frame event) = Some root
                   /\ code_eqb (f_code root) (target_code (trace_func env ctx frame event)) = true
                   /\ _should_trace env (co_filename (f_code root)) = true).
Proof.
  intros Hwait Hact. rewrite trace_func_target.
  destruct (started ctx) eqn:Hst.
  - destruct (trace_func_started env ctx frame event Hst) as [-> ->].
    split; [discriminate | intros _; now apply Hact].
  - destruct (_should_trace env (co_filename (f_code frame))) eqn:Htr.
    + destruct (code_eqb (f_code frame) (target_code ctx)) eqn:Hcode.
      * destruct (gate_opens env ctx frame event Hst Htr Hcode)
          as [-> ->].
        split; [discriminate | intros _; eauto].
      * rewrite (trace_func_waiting env ctx frame event Hst) by (right; exact Hcode).
        rewrite Hst. split; [intros _; now apply Hwait | discriminate].
    + rewrite (trace_func_untraceable env ctx frame event Htr).
      rewrite Hst. split; [intros _; now apply Hwait | discriminate].
Qed.

Lemma feed_gate_invariant env deliveries : forall ctx,
  (started ctx = false ->
     events ctx = [] /\ exception_info ctx = None /\ root_frame ctx = None) ->
  (started ctx = true ->
     exists root, root_frame ctx = Some root
                  /\ code_eqb (f_code root) (target_code ctx) = true
                  /\ _should_trace env (co_filename (f_code root)) = true) ->
  (started (feed env ctx deliveries) = false ->
     events (feed env ctx deliveries) = []
     /\ exception_info (feed env ctx deliveries) = None
     /\ root_frame (feed env ctx deliveries) = None)
  /\ (started (feed env ctx deliveries) = true ->
      exists root, root_frame (feed env ctx deliveries) = Some root
                   /\ code_eqb (f_code root) (target_code (feed env ctx deliveries)) = true
                   /\ _should_trace env (co_filename (f_code root)) = true).
Proof.
  unfold feed. induction deliveries as [|[frame event] ds IH]; intros ctx Hwait Hact.
  - cbn. auto.
  - cbn [foldl fst snd].
    destruct (trace_func_gate_invariant env ctx frame event Hwait Hact) as [Hwait' Hact'].
    now apply IH.
Qed.

Lemma feed_target env deliveries : forall ctx,
  target_code (feed env ctx deliveries) = target_code ctx.
Proof.
  unfold feed. induction deliveries as [|d ds IH]; intros ctx; [reflexivity|].
  cbn [foldl]. now rewrite IH, trace_func_target.
Qed.

(** X8.  In the context of a traced call nothing is on record before the
    recording has started: the log and the exception slot are empty and no
    root frame is set; and once it has started, the root frame is a
    traceable frame that runs the target's code. *)
Theorem X8_log_is_empty_until_started env target lf rt ur deliveries :
  (started (feed env (new_context target lf rt ur) deliveries) = false ->
     events (feed env (new_context target lf rt ur) deliveries) = []
     /\ exception_info (feed env (new_context target lf rt ur) deliveries) = None
     /\ root_frame (feed env (new_context target lf rt ur) deliveries) = None)
  /\ (started (feed env (new_context target lf rt ur) deliveries) = true ->
      exists root,
        root_frame (feed env (new_context target lf rt ur) deliveries) = Some root
        /\ code_eqb (f_code root) target = true
        /\ _should_trace env (co_filename (f_code root)) = true).
Proof.
  destruct (feed_gate_invariant env deliveries (new_context target lf rt ur))
    as [Hwait Hact]; [cbn; auto | cbn; discriminate |].
  split; [exact Hwait|].
  intros Hst. destruct (Hact Hst) as (root & Hroot & Hcode & Htr).
  exists root. repeat split; auto.
  now rewrite feed_target in Hcode.
Qed.

Lemma X8_log_is_empty_until_started_witness :
  events (feed posix_env (new_context code_g None false false)
            [(frame_f, RawCall); (frame_f, RawLine)]) = [].
Proof.
  destruct (X8_log_is_empty_until_started posix_env code_g None false false
              [(frame_f, RawCall); (frame_f, RawLine)]) as [Hwait _].
  destruct Hwait as [Hev _]; [vm_compute; reflexivity | exact Hev].
Defined.

(** ** Indentation of the plain report *)

Lemma plain_body_call is_failure path lineno func rest depth :
  plain_body is_failure (EvCall path lineno func :: rest) depth =
  (indent_of depth ++ "↳ " ++ path ++ ":" ++ fmt_int lineno ++ " (" ++ func ++ ")")
    :: plain_body is_failure rest (depth + 1).
Proof. reflexivity. Qed.

Lemma plain_body_return is_failure path lineno func rest depth :
  plain_body is_failure (EvReturn path lineno func :: rest) depth =
  (indent_of (depth - 1) ++ "↰ " ++ path ++ " (" ++ func ++ ")")
    :: plain_body is_failure rest (depth - 1).
Proof. reflexivity. Qed.

(** X9.  In the plain report the line of a call and the line of its
    matching return carry the same indentation, the one of the depth at
    which the call was met, whatever was recorded in between. *)
Theorem X9_matching_lines_share_indentation
    ctx is_failure seen inner todo path lineno func path' lineno' func' :
  matched inner ->
  events ctx
    = (seen ++ EvCall path lineno func :: inner ++ EvReturn path' lineno' func' :: todo)%list ->
  plain_lines ctx is_failure !! length seen
    = Some (indent_of (depth_delta seen) ++ "↳ " ++ path ++ ":" ++ fmt_int lineno
              ++ " (" ++ func ++ ")")
  /\ plain_lines ctx is_failure !! (length seen + 1 + length inner)%nat
     = Some (indent_of (depth_delta seen) ++ "↰ " ++ path' ++ " (" ++ func' ++ ")").
Proof.
  intros Hinner Hev. rewrite plain_lines_body, Hev, plain_body_app, plain_body_call.
  rewrite Z.add_0_l. split.
  - rewrite lookup_app_r by (rewrite plain_body_length; lia).
    rewrite plain_body_length, Nat.sub_diag. reflexivity.
  - rewrite lookup_app_r by (rewrite plain_body_length; lia).
    rewrite plain_body_length.
    replace (length seen + 1 + length inner - length seen)%nat with (S (length inner)) by lia.
    rewrite lookup_cons. cbv beta iota.
    rewrite plain_body_app, (matched_delta inner Hinner).
    rewrite lookup_app_r by (rewrite plain_body_length; lia).
    rewrite plain_body_length, Nat.sub_diag, plain_body_return, lookup_cons. cbv beta iota.
    replace (depth_delta seen + 1 + 0 - 1)%Z with (depth_delta seen) by lia.
    reflexivity.
Qed.

Lemma X9_matching_lines_share_indentation_witness :
  plain_lines (sample_ctx false) true !! 1%nat = Some "    ↳ main.py:6 (g)"
  /\ plain_lines (sample_ctx false) true !! 2%nat = Some "    ↰ main.py (g)".
Proof.
  exact (X9_matching_lines_share_indentation (sample_ctx false) true
           [EvCall "main.py" 5 "f"] []
           [EvException "main.py" 7 "f" (ValueError "bad"); EvReturn "main.py" 7 "f"]
           "main.py" 6%Z "g" "main.py" 9%Z "g" matched_nil eq_refl).
Defined.







(** ** Reports of runs that record nothing *)

(** X11.  When every event of the run is filtered out or comes from code
    other than the target's (the traced function lives in an installed
    package, say), the report shows an empty trace: the four framing lines
    alone in plain mode, the single node [No events captured] in a green
    panel in rich mode, for a failure as for a success. *)
Theorem X11_report_of_an_empty_trace env target lf rt deliveries status is_failure :
  Forall (ignored_while_waiting env (new_context target lf rt false)) deliveries ->
  format_trace (feed env (new_context target lf rt false) deliveries) status is_failure
    = Ok (FStr (join nl ["EXECUTION TRACE (no exception)"; "=== BACKTRACE ===";
                         "================="; "STATUS: " ++ status]))
  /\ format_trace (feed env (new_context target lf rt true) deliveries) status is_failure
     = Ok (FPanel (mkPanel (RTree (Tree_new "No events captured"))
                           "[green bold]EXECUTION TRACE[/green bold]"
                           "no exception" "green" (1, 2)%Z)).
Proof.
  intros Hall. split.
  - rewrite (feed_ignored env (new_context target lf rt false) deliveries eq_refl Hall).
    destruct is_failure; reflexivity.
  - rewrite (feed_ignored env (new_context target lf rt true) deliveries eq_refl Hall).
    destruct is_failure; reflexivity.
Qed.

Lemma X11_report_of_an_empty_trace_witness :
  format_trace
    (feed posix_env (new_context code_f None false false)
          [(mkFrame 50 (mkCode "/usr/lib/python3/site-packages/pkg/mod.py" "f" 1) 3 []
                    (Some frame_main), RawCall)])
    "PASS" false
  = Ok (FStr (join nl ["EXECUTION TRACE (no exception)"; "=== BACKTRACE ===";
                       "================="; "STATUS: PASS"])).
Proof.
  destruct (X11_report_of_an_empty_trace posix_env code_f None false
              [(mkFrame 50 (mkCode "/usr/lib/python3/site-packages/pkg/mod.py" "f" 1) 3 []
                        (Some frame_main), RawCall)]
              "PASS" false) as [Hplain _].
  - constructor; [left; vm_compute; reflexivity | constructor].
  - exact Hplain.
Defined.

(** ** Shape of the tree *)

Lemma build_loop_app is_failure evs1 : forall evs2 st,
  build_loop is_failure (evs1 ++ evs2) st =
  (let! st' := build_loop is_failure evs1 st in build_loop is_failure evs2 st').
Proof.
  induction evs1 as [|e rest IH]; intros evs2 st; cbn [app build_loop]; [reflexivity|].
  destruct (build_step is_failure st e) as [st1|err]; cbn [bind]; [apply IH | reflexivity].
Qed.

Lemma py_last_snoc {A} (l : list A) (x : A) : py_last (l ++ [x]) = Ok x.
Proof. unfold py_last. now rewrite last_snoc. Qed.

Lemma py_pop_snoc {A} (l : list A) (x : A) : py_pop (l ++ [x]) = Ok l.
Proof.
  unfold py_pop. destruct (l ++ [x])%list eqn:Heq.
  - destruct l; discriminate.
  - now rewrite <- Heq, removelast_last.
Qed.

Lemma Tree_add_length heap parent label :
  length (fst (Tree_add heap parent label)) = S (length heap)
  /\ snd (Tree_add heap parent label) = length heap.
Proof.
  unfold Tree_add, Tree. cbn [fst snd]. rewrite length_app, length_alter. cbn [length]. lia.
Qed.

(** A well-nested stretch of events leaves the stack as it found it and
    adds one node per event. *)
Lemma build_loop_matched is_failure inner :
  matched inner -> forall heap stack,
  (1 <= length stack)%nat ->
  exists heap',
    build_loop is_failure inner (mkBuild heap stack) = Ok (mkBuild heap' stack)
    /\ length heap' = (length heap + length inner)%nat.
Proof.
  induction 1 as [| path lineno func exc rest _ IH
                  | path lineno func path' lineno' func' inner rest _ IHin _ IHrest];
    intros heap stack Hlen.
  - exists heap. split; [reflexivity | cbn; lia].
  - destruct (py_last_nonempty stack Hlen) as [top Htop].
    cbn [build_loop build_step bs_heap bs_stack]. rewrite Htop. cbn [bind].
    destruct (Tree_add_length heap top (exception_label is_failure path lineno func exc))
      as [Hl _].
    destruct (Tree_add heap top _) as [heap1 node]. cbn [bind fst] in *.
    destruct (IH heap1 stack Hlen) as (heap' & -> & Hlen').
    exists heap'. split; [reflexivity | cbn [length]; lia].
  - destruct (py_last_nonempty stack Hlen) as [top Htop].
    cbn [build_loop build_step bs_heap bs_stack]. rewrite Htop. cbn [bind].
    destruct (Tree_add_length heap top (call_label path lineno func)) as [Hl1 _].
    destruct (Tree_add heap top _) as [heap1 node]. cbn [bind fst] in *.
    rewrite build_loop_app.
    destruct (IHin heap1 (stack ++ [node])%list) as (heap2 & -> & Hl2);
      [rewrite length_app; cbn; lia|].
    cbn [bind build_loop build_step bs_heap bs_stack].
    replace (1 <? length (stack ++ [node]))%nat with true
      by (symmetry; apply Nat.ltb_lt; rewrite length_app; cbn; lia).
    rewrite py_last_snoc. cbn [bind].
    destruct (Tree_add_length heap2 node (return_label path' func')) as [Hl3 _].
    destruct (Tree_add heap2 node _) as [heap3 node']. cbn [bind fst] in *.
    rewrite py_pop_snoc. cbn [bind].
    destruct (IHrest heap3 stack Hlen) as (heap' & -> & Hl4).
    exists heap'. split; [reflexivity|].
    cbn [length]. rewrite length_app. cbn [length]. lia.
Qed.

(** X12.  When the log is the root's call, a well-nested stretch and then
    the root's own return, the tree of the rich report is the tree of the
    log without that last return: the return of the root call finds only
    the root on the stack and is not shown, so the tree has one node less
    than the plain report has lines. *)
Theorem X12_root_return_is_not_in_the_tree
    ctx ctx' is_failure first inner path lineno func :
  matched inner ->
  events ctx = (first :: inner ++ [EvReturn path lineno func])%list ->
  events ctx' = first :: inner ->
  exists tree,
    _build_tree ctx is_failure = Ok tree
    /\ _build_tree ctx' is_failure = Ok tree
    /\ length tree = S (length inner)
    /\ length (plain_lines ctx is_failure) = S (length tree).
Proof.
  intros Hinner Hev Hev'. unfold _build_tree. rewrite Hev, Hev', build_loop_app.
  destruct (build_loop_matched is_failure inner Hinner
              (bs_heap (build_init first)) (bs_stack (build_init first)))
    as (heap' & Hloop & Hlen); [cbn; lia|].
  change (mkBuild (bs_heap (build_init first)) (bs_stack (build_init first)))
    with (build_init first) in Hloop.
  rewrite Hloop. cbn.
  assert (Hnodes : length heap' = S (length inner)) by (cbn in Hlen; lia).
  exists heap'. split; [reflexivity|]. split; [reflexivity|]. split; [exact Hnodes|].
  rewrite plain_lines_body, plain_body_length, Hev, Hnodes. cbn [length].
  rewrite length_app. cbn [length]. lia.
Qed.

Lemma X12_root_return_is_not_in_the_tree_witness :
  exists tree,
    _build_tree (quiet_ctx true) true = Ok tree
    /\ length tree = 3%nat
    /\ length (plain_lines (quiet_ctx true) true) = 4%nat.
Proof.
  destruct (X12_root_return_is_not_in_the_tree
              (quiet_ctx true)
              (mkCtx code_f None false true
                     [EvCall "main.py" 5 "f"; EvCall "main.py" 6 "g"; EvReturn "main.py" 9 "g"]
                     None true (Some frame_f))
              true (EvCall "main.py" 5 "f")
              [EvCall "main.py" 6 "g"; EvReturn "main.py" 9 "g"] "main.py" 5%Z "f")
    as (tree & Htree & _ & Hlen & Hplain).
  - apply (matched_call "main.py" 6%Z "g" "main.py" 9%Z "g" [] []); constructor.
  - reflexivity.
  - reflexivity.
  - exists tree. rewrite Hplain, Hlen. auto.
Defined.

Lemma all_children_app (heap1 heap2 : Tree) :
  all_children (heap1 ++ heap2)%list = (all_children heap1 ++ all_children heap2)%list.
Proof. unfold all_children. now rewrite map_app, concat_app. Qed.

Lemma all_children_alter child heap : forall parent,
  (parent < length heap)%nat ->
  all_children (alter (add_child child) parent heap) ≡ₚ child :: all_children heap.
Proof.
  unfold all_children.
  induction heap as [|n rest IH]; intros parent Hlt; [cbn in Hlt; lia|].
  destruct parent as [|parent]; cbn [alter list_alter map concat].
  - cbn [add_child node_children]. rewrite <- app_assoc. cbn [app].
    symmetry. apply Permutation_middle.
  - change (list_alter (add_child child) parent rest)
      with (alter (add_child child) parent rest).
    rewrite IH by (cbn in Hlt; lia).
    symmetry. apply Permutation_middle.
Qed.

Lemma parent_before_child_add heap parent label :
  (parent < length heap)%nat ->
  parent_before_child heap ->
  parent_before_child (fst (Tree_add heap parent label)).
Proof.
  intros Hlt Hwf i n Hi. unfold Tree_add, Tree in Hi. cbn [fst] in Hi.
  apply lookup_app_Some in Hi as [Hi | [Hge Hi]].
  - destruct (decide (parent = i)) as [->|Hne].
    + rewrite list_lookup_alter_eq in Hi.
      destruct (heap !! i) as [m|] eqn:Hm; [|discriminate].
      cbn in Hi. injection Hi as <-. cbn [add_child node_children].
      apply Forall_app. split; [exact (Hwf i m Hm)|]. constructor; [exact Hlt | constructor].
    + rewrite list_lookup_alter_ne in Hi by exact Hne. exact (Hwf i n Hi).
  - rewrite length_alter in Hge.
    destruct (i - length (alter (add_child (length heap)) parent heap))%nat;
      [|destruct n0; discriminate].
    injection Hi as <-. constructor.
Qed.

Lemma is_tree_new label : is_tree label (Tree_new label).
Proof.
  repeat split; [reflexivity|].
  intros i n Hi. destruct i; [injection Hi as <-; constructor | discriminate].
Qed.

Lemma is_tree_add root_label heap parent label :
  (parent < length heap)%nat ->
  is_tree root_label heap ->
  is_tree root_label (fst (Tree_add heap parent label)).
Proof.
  intros Hlt (Hroot & Hperm & Hwf). split; [|split].
  - unfold Tree_add, Tree in *. cbn [fst].
    rewrite lookup_app_l by (rewrite length_alter; lia).
    destruct (decide (parent = 0%nat)) as [->|Hne].
    + rewrite list_lookup_alter_eq.
      destruct (heap !! 0%nat) as [n|]; cbn in Hroot |- *; [exact Hroot | discriminate Hroot].
    + now rewrite list_lookup_alter_ne.
  - destruct (Tree_add_length heap parent label) as [-> _].
    unfold Tree_add. cbn [fst]. rewrite all_children_app, all_children_alter by exact Hlt.
    change (all_children [mkNode label []]) with (@nil nat). rewrite app_nil_r, Hperm.
    replace (S (length heap) - 1)%nat with (S (length heap - 1)) by lia.
    rewrite seq_S. replace (1 + (length heap - 1))%nat with (length heap) by lia.
    apply Permutation_cons_append.
  - now apply parent_before_child_add.
Qed.

Lemma py_last_valid (stack : list nat) (bound top : nat) :
  Forall (fun h => (h < bound)%nat) stack -> py_last stack = Ok top -> (top < bound)%nat.
Proof.
  intros Hall Htop. unfold py_last in Htop.
  destruct (last stack) as [x|] eqn:Hlast; [|discriminate]. injection Htop as ->.
  rewrite Forall_forall in Hall. apply Hall, list_elem_of_In.
  apply last_Some in Hlast as [l' ->]. apply in_or_app. right. now left.
Qed.

Lemma Forall_removelast {A} (P : A -> Prop) (l : list A) :
  Forall P l -> Forall P (removelast l).
Proof. intros H. rewrite removelast_firstn_len. now apply Forall_take. Qed.

Lemma handles_grow (stack : list nat) (n : nat) :
  Forall (fun h => (h < n)%nat) stack -> Forall (fun h => (h < S n)%nat) stack.
Proof. intros H. eapply Forall_impl; [exact H|]. intros h Hh. cbn in *. lia. Qed.

(** One step keeps the heap a tree and the stack within it. *)
Lemma build_step_tree is_failure root_label st e st' :
  build_step is_failure st e = Ok st' ->
  Forall (fun h => (h < length (bs_heap st))%nat) (bs_stack st) ->
  is_tree root_label (bs_heap st) ->
  Forall (fun h => (h < length (bs_heap st'))%nat) (bs_stack st')
  /\ is_tree root_label (bs_heap st').
Proof.
  intros Hstep Hstack Htree. destruct st as [heap stack]. cbn [bs_heap bs_stack] in *.
  destruct e as [path lineno func | path lineno func | path lineno func exc];
    unfold build_step in Hstep; cbn [bs_heap bs_stack] in Hstep.
  - destruct (py_last stack) as [top|] eqn:Htop; [|discriminate]. cbn [bind] in Hstep.
    pose proof (py_last_valid stack _ top Hstack Htop) as Hlt.
    pose proof (is_tree_add root_label heap top (call_label path lineno func) Hlt Htree) as Ht.
    destruct (Tree_add_length heap top (call_label path lineno func)) as [Hlen Hnode].
    destruct (Tree_add heap top _) as [heap1 node]. cbn [fst snd] in *.
    injection Hstep as <-. cbn [bs_heap bs_stack]. split; [|exact Ht].
    rewrite Hlen. apply Forall_app. split; [now apply handles_grow|].
    constructor; [lia | constructor].
  - destruct (1 <? length stack)%nat.
    + destruct (py_last stack) as [top|] eqn:Htop; [|discriminate]. cbn [bind] in Hstep.
      pose proof (py_last_valid stack _ top Hstack Htop) as Hlt.
      pose proof (is_tree_add root_label heap top (return_label path func) Hlt Htree) as Ht.
      destruct (Tree_add_length heap top (return_label path func)) as [Hlen _].
      destruct (Tree_add heap top _) as [heap1 node]. cbn [fst snd] in *.
      destruct stack as [|h t]; [discriminate|]. cbn [py_pop bind] in Hstep.
      injection Hstep as <-. cbn [bs_heap bs_stack]. split; [|exact Ht].
      rewrite Hlen. apply (Forall_removelast _ (h :: t)). now apply handles_grow.
    + injection Hstep as <-. auto.
  - destruct (py_last stack) as [top|] eqn:Htop; [|discriminate]. cbn [bind] in Hstep.
    pose proof (py_last_valid stack _ top Hstack Htop) as Hlt.
    pose proof (is_tree_add root_label heap top
                  (exception_label is_failure path lineno func exc) Hlt Htree) as Ht.
    destruct (Tree_add_length heap top (exception_label is_failure path lineno func exc))
      as [Hlen _].
    destruct (Tree_add heap top _) as [heap1 node]. cbn [fst snd] in *.
    injection Hstep as <-. cbn [bs_heap bs_stack]. split; [|exact Ht].
    rewrite Hlen. now apply handles_grow.
Qed.

Lemma build_loop_tree is_failure root_label evs : forall st st',
  build_loop is_failure evs st = Ok st' ->
  Forall (fun h => (h < length (bs_heap st))%nat) (bs_stack st) ->
  is_tree root_label (bs_heap st) ->
  is_tree root_label (bs_heap st').
Proof.
  induction evs as [|e rest IH]; intros st st' Hloop Hstack Htree; cbn [build_loop] in Hloop.
  - now injection Hloop as <-.
  - destruct (build_step is_failure st e) as [st1|] eqn:Hstep; [|discriminate].
    cbn [bind] in Hloop.
    destruct (build_step_tree is_failure root_label st e st1 Hstep Hstack Htree).
    eapply IH; eauto.
Qed.

(** X13.  What [_build_tree] returns is a tree rooted at handle [0]: every
    other node is the child of exactly one node, created before it, so no
    label added during the walk is lost or shared; and its root carries the
    call-style label of the first event, whatever the kind of that event,
    or [No events captured] for an empty log. *)
Theorem X13_build_tree_returns_a_tree (ctx : _TraceContext) (is_failure : bool) :
  exists tree,
    _build_tree ctx is_failure = Ok tree
    /\ is_tree
         match events ctx with
         | first :: _ => call_label (ev_path first) (ev_lineno first) (ev_func first)
         | [] => "No events captured"
         end
         tree.
Proof.
  destruct (build_tree_ok ctx is_failure) as [tree Htree]. exists tree.
  split; [exact Htree|]. unfold _build_tree in Htree.
  destruct (events ctx) as [|first rest].
  - injection Htree as <-. apply is_tree_new.
  - destruct (build_loop is_failure rest (build_init first)) as [st|] eqn:Hloop;
      [|discriminate].
    cbn [bind] in Htree. injection Htree as <-.
    eapply build_loop_tree; [exact Hloop | | apply is_tree_new].
    constructor; [cbn; lia | constructor].
Qed.

(** ** Destinations of a report *)

(** X14.  [output_trace] has three destinations and uses exactly one, in a
    fixed order.  With [return_trace] it returns the report as a string and
    leaves the world alone, log file or not; otherwise, with a log file
    that opens, it appends the report and a newline to that file and
    touches no other file nor the console; otherwise it sends one item to
    the console and touches no file. *)
Theorem X14_output_trace_destinations ctx out (w : World) :
  (return_trace ctx = true ->
     output_trace ctx out w = (Ok (Some (to_str w out)), w))
  /\ (return_trace ctx = false ->
      forall path,
        truthy (log_file ctx) = Some path ->
        open_errors w !! path = None ->
        exists w',
          output_trace ctx out w = (Ok None, w')
          /\ files w' !! path = Some (default "" (files w !! path) ++ (to_str w out ++ nl))
          /\ (forall other, other <> path -> files w' !! other = files w !! other)
          /\ console w' = console w)
  /\ (return_trace ctx = false ->
      truthy (log_file ctx) = None ->
      exists item,
        output_trace ctx out w = (Ok None, console_out item w)
        /\ files (console_out item w) = files w
        /\ console (console_out item w) = (console w ++ [item])%list).
Proof.
  split; [apply output_trace_returns|]. split.
  - intros Hret path Hlog Hopen.
    rewrite (output_trace_log_file ctx out w path Hret Hlog), Hopen.
    eexists. split; [reflexivity|]. cbn [files set_files console].
    split; [apply lookup_insert_eq|]. split; [|reflexivity].
    intros other Hne. now apply lookup_insert_ne.
  - intros Hret Hlog.
    destruct (output_trace_console ctx out w Hret Hlog) as (item & Heq & Hfiles).
    exists item. auto.
Qed.

Lemma X14_output_trace_destinations_witness :
  output_trace (mkCtx code_f (Some "/var/log/trace.log") true false [] None false None)
               (FStr "report") locked_world
  = (Ok (Some "report"), locked_world).
Proof.
  destruct (X14_output_trace_destinations
              (mkCtx code_f (Some "/var/log/trace.log") true false [] None false None)
              (FStr "report") locked_world) as [Hreturn _].
  exact (Hreturn eq_refl).
Defined.

Lemma string_app_assoc (a b c : string) : (a ++ b) ++ c = a ++ (b ++ c).
Proof.
  induction a as [|x a IH]; [reflexivity|].
  change ((String x a ++ b) ++ c) with (String x ((a ++ b) ++ c)).
  change (String x a ++ (b ++ c)) with (String x (a ++ (b ++ c))).
  now rewrite IH.
Qed.

(** X15.  The log file is only ever appended to: two reports sent one after
    the other to the same log file leave it holding what it held before,
    then the first report and a newline, then the second and a newline. *)
Theorem X15_log_file_accumulates_reports ctx out1 out2 (w : World) path :
  return_trace ctx = false ->
  truthy (log_file ctx) = Some path ->
  open_errors w !! path = None ->
  files (snd (output_trace ctx out2 (snd (output_trace ctx out1 w)))) !! path
  = Some (default "" (files w !! path) ++ (to_str w out1 ++ nl) ++ (to_str w out2 ++ nl)).
Proof.
  intros Hret Hlog Hopen.
  rewrite (output_trace_log_file ctx out1 w path Hret Hlog), Hopen. cbn [snd].
  rewrite (output_trace_log_file ctx out2 _ path Hret Hlog).
  cbn [open_errors set_files]. rewrite Hopen. cbn [snd files set_files].
  rewrite lookup_insert_eq, lookup_insert_eq.
  assert (Hdefault : forall x : string, default "" (Some x) = x) by reflexivity.
  rewrite Hdefault, string_app_assoc. destruct out2; reflexivity.
Qed.

Lemma X15_log_file_accumulates_reports_witness :
  files (snd (output_trace
                (mkCtx code_f (Some "trace.log") false false [] None false None) (FStr "second")
                (snd (output_trace
                        (mkCtx code_f (Some "trace.log") false false [] None false None)
                        (FStr "first") empty_world)))) !! "trace.log"
  = Some ("first" ++ nl ++ "second" ++ nl).
Proof.
  exact (X15_log_file_accumulates_reports
           (mkCtx code_f (Some "trace.log") false false [] None false None)
           (FStr "first") (FStr "second") empty_world "trace.log" eq_refl eq_refl eq_refl).
Defined.



(** X17.  When the log file cannot be opened, [output_trace] raises the
    error of [open] and leaves the world as it was: nothing is written and
    the report does not fall back to the console. *)
Theorem X17_unopenable_log_file_raises ctx out (w : World) path err :
  return_trace ctx = false ->
  truthy (log_file ctx) = Some path ->
  open_errors w !! path = Some err ->
  output_trace ctx out w = (Raise err, w).
Proof.
  intros Hret Hlog Herr. now rewrite (output_trace_log_file ctx out w path Hret Hlog), Herr.
Qed.

Lemma X17_unopenable_log_file_raises_witness :
  output_trace (mkCtx code_f (Some "/var/log/trace.log") false false [] None false None)
               (FStr "report") locked_world
  = (Raise (PermissionError "[Errno 13] Permission denied: '/var/log/trace.log'"),
     locked_world).
Proof.
  exact (X17_unopenable_log_file_raises
           (mkCtx code_f (Some "/var/log/trace.log") false false [] None false None)
           (FStr "report") locked_world "/var/log/trace.log" _ eq_refl eq_refl eq_refl).
Defined.

(** ** Calls through the wrapper *)

Lemma context_of_run_config env cfg func deliveries :
  log_file (context_of_run env cfg func deliveries) = cfg_log_file cfg
  /\ return_trace (context_of_run env cfg func deliveries) = cfg_return_trace cfg
  /\ use_rich (context_of_run env cfg func deliveries) = cfg_use_rich cfg.
Proof. unfold context_of_run. apply feed_config. Qed.

Lemma emit_sink_ok ctx status is_failure pending run :
  return_trace ctx = true
  \/ (forall path, truthy (log_file ctx) = Some path ->
                   open_errors (run_world run) !! path = None) ->
  exists out returned w',
    format_trace ctx status is_failure = Ok out
    /\ emit ctx status is_failure pending run
       = mkRun pending w' (run_reports run ++ [mkReport status is_failure out])
               (run_sink_returns run ++ [returned])
    /\ handled_exc w' = handled_exc (run_world run)
    /\ open_errors w' = open_errors (run_world run)
    /\ trace_hook w' = trace_hook (run_world run).
Proof.
  intros Hsink. destruct (format_trace_ok ctx status is_failure) as [out Hout].
  exists out. unfold emit. rewrite Hout.
  destruct (return_trace ctx) eqn:Hret.
  - rewrite (output_trace_returns ctx out _ Hret). eauto 10.
  - destruct Hsink as [?|Hsink]; [discriminate|].
    destruct (truthy (log_file ctx)) as [path|] eqn:Hlog.
    + rewrite (output_trace_log_file ctx out _ path Hret Hlog), (Hsink path eq_refl).
      eexists _, _. split; [reflexivity|]. split; [reflexivity|]. auto.
    + destruct (output_trace_console ctx out (run_world run) Hret Hlog) as (item & -> & _).
      eexists _, _. split; [reflexivity|]. split; [reflexivity|]. auto.
Qed.

Lemma emit_sink_raises ctx status is_failure pending run path err :
  return_trace ctx = false ->
  truthy (log_file ctx) = Some path ->
  open_errors (run_world run) !! path = Some err ->
  exists out,
    format_trace ctx status is_failure = Ok out
    /\ emit ctx status is_failure pending run
       = mkRun (Raise err) (run_world run)
               (run_reports run ++ [mkReport status is_failure out]) (run_sink_returns run).
Proof.
  intros Hret Hlog Herr. destruct (format_trace_ok ctx status is_failure) as [out Hout].
  exists out. split; [exact Hout|]. unfold emit.
  now rewrite Hout, (output_trace_log_file ctx out _ path Hret Hlog), Herr.
Qed.

(** The call of [wrapper], with the run of the callable named. *)
Lemma wrapper_unfold env cfg func args (w : World) deliveries outcome w' :
  fn_call func args (settrace (Some (ContextTracer (fn_code func))) w)
    = (deliveries, outcome, w') ->
  wrapper env cfg func args w =
  let ctx := context_of_run env cfg func deliveries in
  let run := mkRun outcome w' [] [] in
  let run :=
    match outcome with
    | Ok result =>
        if cfg_trace_on_success cfg then emit ctx "PASS" false (Ok result) run else run
    | Raise _ => run
    end in
  let run := mkRun (run_outcome run) (settrace (trace_hook w) (run_world run))
                   (run_reports run) (run_sink_returns run) in
  match match run_outcome run with
        | Raise err => Some err
        | Ok _ => handled_exc (run_world run)
        end with
  | Some _ => emit ctx "FAIL" true (run_outcome run) run
  | None => run
  end.
Proof. intros Hcall. unfold wrapper. rewrite Hcall. reflexivity. Qed.

(** X18.  A call that returns while the caller handles no exception, with a
    sink that cannot raise, returns the value of the traced callable; it
    routes exactly one report, a [PASS] report, when [trace_on_success] is
    set, and no report at all when it is not. *)
Theorem X18_successful_call env cfg func args (w : World) deliveries value w' :
  fn_call func args (settrace (Some (ContextTracer (fn_code func))) w)
    = (deliveries, Ok value, w') ->
  handled_exc w' = None ->
  sink_opens cfg w' ->
  run_outcome (wrapper env cfg func args w) = Ok value
  /\ (cfg_trace_on_success cfg = true ->
      exists out,
        format_trace (context_of_run env cfg func deliveries) "PASS" false = Ok out
        /\ run_reports (wrapper env cfg func args w) = [mkReport "PASS" false out])
  /\ (cfg_trace_on_success cfg = false ->
      run_reports (wrapper env cfg func args w) = []
      /\ files (run_world (wrapper env cfg func args w)) = files w'
      /\ console (run_world (wrapper env cfg func args w)) = console w').
Proof.
  intros Hcall Hnone Hsink. rewrite (wrapper_unfold env cfg func args w _ _ _ Hcall).
  cbv zeta.
  destruct (context_of_run_config env cfg func deliveries) as (Hlog & Hret & _).
  destruct (cfg_trace_on_success cfg).
  - destruct (emit_sink_ok (context_of_run env cfg func deliveries) "PASS" false
                (Ok value) (mkRun (Ok value) w' [] []))
      as (out & returned & w1 & Hout & -> & Hh & _ & _).
    { rewrite Hret, Hlog. exact Hsink. }
    cbn [run_outcome run_world run_reports run_sink_returns settrace handled_exc].
    rewrite Hh. cbn [run_world]. rewrite Hnone. cbn.
    split; [reflexivity|]. split; [eauto | discriminate].
  - cbn [run_outcome run_world run_reports run_sink_returns settrace handled_exc].
    rewrite Hnone. cbn. split; [reflexivity|]. split; [discriminate | auto].
Qed.

Lemma X18_successful_call_witness :
  run_outcome (wrapper posix_env print_plain returning_f [] empty_world) = Ok (VInt 42)
  /\ exists out,
       run_reports (wrapper posix_env print_plain returning_f [] empty_world)
         = [mkReport "PASS" false out].
Proof.
  destruct (X18_successful_call posix_env print_plain returning_f [] empty_world
              _ _ _ eq_refl eq_refl) as (Hvalue & Hpass & _).
  - right. intros path Hpath. discriminate Hpath.
  - split; [exact Hvalue|]. destruct (Hpass eq_refl) as (out & _ & Hreports). eauto.
Defined.

(** X19.  A call made while the caller is handling an exception (from
    inside an [except] block) gets a [FAIL] report although the traced
    callable returned, because [sys.exc_info()] in the [finally] block
    reports the caller's exception.  Provided every sink call returns, the
    value of the callable is still returned.  Without [trace_on_success]
    the [FAIL] report is the only report and is made from the context of
    the run; with it, the [FAIL] report follows the [PASS] report and is
    made from the context as the [PASS] emission left it, with the events
    the hook received while the [PASS] report was put out. *)
Theorem X19_fail_report_for_a_call_from_an_except_block
    dev env cfg func args (w : World) deliveries value w' :
  fn_call func args (settrace (Some (ContextTracer (fn_code func))) w)
    = (deliveries, Ok value, w') ->
  (cfg_trace_on_success cfg = false ->
   forall handled fail returned w2,
     handled_exc w' = Some handled ->
     format_trace (context_of_run env cfg func deliveries) "FAIL" true = Ok fail ->
     output_trace_on dev (context_of_run env cfg func deliveries) fail
                     (settrace (trace_hook w) w') = (Ok returned, w2) ->
     wrapper_on dev env cfg func args w
       = mkRun (Ok value) w2 [mkReport "FAIL" true fail] [returned])
  /\ (cfg_trace_on_success cfg = true ->
      forall handled pass returned1 w1 fail returned2 w2,
        format_trace (context_of_run env cfg func deliveries) "PASS" false = Ok pass ->
        output_trace_on dev (context_of_run env cfg func deliveries) pass w'
          = (Ok returned1, w1) ->
        handled_exc w1 = Some handled ->
        format_trace
          (feed env (context_of_run env cfg func deliveries)
                (dev_traced dev (context_of_run env cfg func deliveries) w'))
          "FAIL" true = Ok fail ->
        output_trace_on dev
          (feed env (context_of_run env cfg func deliveries)
                (dev_traced dev (context_of_run env cfg func deliveries) w'))
          fail (settrace (trace_hook w) w1) = (Ok returned2, w2) ->
        wrapper_on dev env cfg func args w
          = mkRun (Ok value) w2
                  [mkReport "PASS" false pass; mkReport "FAIL" true fail]
                  [returned1; returned2]).
Proof.
  intros Hcall. unfold wrapper_on. rewrite Hcall. cbv zeta.
  fold (context_of_run env cfg func deliveries).
  assert (Hemit : forall ctx status is_failure pending run out returned w0,
             format_trace ctx status is_failure = Ok out ->
             output_trace_on dev ctx out (run_world run) = (Ok returned, w0) ->
             emit_on dev ctx status is_failure pending run
             = mkRun pending w0 (run_reports run ++ [mkReport status is_failure out])
                     (run_sink_returns run ++ [returned])).
  { intros ctx status is_failure pending run out returned w0 Hout Hsink.
    unfold emit_on. now rewrite Hout, Hsink. }
  split; intros Hsuccess; rewrite Hsuccess.
  - intros handled fail returned w2 Hhandled Hfail Hsink.
    cbn [run_outcome run_world run_reports run_sink_returns].
    change (handled_exc (settrace (trace_hook w) w')) with (handled_exc w').
    rewrite Hhandled.
    exact (Hemit _ "FAIL" true (Ok value) (mkRun (Ok value) (settrace (trace_hook w) w') [] [])
                 fail returned w2 Hfail Hsink).
  - intros handled pass returned1 w1 fail returned2 w2 Hpass Hsink1 Hhandled Hfail Hsink2.
    rewrite (Hemit _ "PASS" false (Ok value) (mkRun (Ok value) w' [] []) pass returned1 w1
               Hpass Hsink1).
    cbn [run_outcome run_world run_reports run_sink_returns app].
    change (handled_exc (settrace (trace_hook w) w1)) with (handled_exc w1).
    rewrite Hhandled.
    exact (Hemit _ "FAIL" true (Ok value)
                 (mkRun (Ok value) (settrace (trace_hook w) w1) [mkReport "PASS" false pass]
                        [returned1])
                 fail returned2 w2 Hfail Hsink2).
Qed.

(** With library code traced while the [PASS] report is printed, the
    [FAIL] report of a call that returned names the [KeyError] that code
    raised and caught. *)
Lemma X19_fail_report_for_a_call_from_an_except_block_witness :
  exists pass lines w2,
    wrapper_on traced_device posix_env print_plain returning_f [] handling_world
    = mkRun (Ok (VInt 42)) w2
        [mkReport "PASS" false pass;
         mkReport "FAIL" true
           (FStr (join nl (["EXCEPTION: KeyError: 'TERM' at lib/env.py:12";
                            "=== BACKTRACE ==="] ++ lines
                             ++ ["================="; "STATUS: FAIL"])%list))]
        [None; None].
Proof.
  destruct (X19_fail_report_for_a_call_from_an_except_block traced_device posix_env
              print_plain returning_f [] handling_world _ _ _ eq_refl) as [_ Hboth].
  eexists _, _, _.
  eapply (Hboth eq_refl (mkExc "KeyError" "'k'")); try reflexivity.
Defined.

(** X20.  With [trace_on_success] and a log file that cannot be opened, a
    call whose callable returned normally still raises: the error of [open]
    escapes in place of the value, after a [PASS] report and then a [FAIL]
    report have both been routed to the sink, and nothing is written or
    printed. *)
Theorem X20_unopenable_log_file_turns_success_into_error
    env cfg func args (w : World) deliveries value w' path err :
  fn_call func args (settrace (Some (ContextTracer (fn_code func))) w)
    = (deliveries, Ok value, w') ->
  cfg_trace_on_success cfg = true ->
  cfg_return_trace cfg = false ->
  truthy (cfg_log_file cfg) = Some path ->
  open_errors w' !! path = Some err ->
  run_outcome (wrapper env cfg func args w) = Raise err
  /\ (exists pass fail,
        run_reports (wrapper env cfg func args w)
          = [mkReport "PASS" false pass; mkReport "FAIL" true fail])
  /\ files (run_world (wrapper env cfg func args w)) = files w'
  /\ console (run_world (wrapper env cfg func args w)) = console w'.
Proof.
  intros Hcall Hsuccess Hret Hlog Herr.
  rewrite (wrapper_unfold env cfg func args w _ _ _ Hcall). cbv zeta. rewrite Hsuccess.
  destruct (context_of_run_config env cfg func deliveries) as (Hlog' & Hret' & _).
  rewrite <- Hlog' in Hlog. rewrite <- Hret' in Hret.
  destruct (emit_sink_raises (context_of_run env cfg func deliveries) "PASS" false
              (Ok value) (mkRun (Ok value) w' [] []) path err Hret Hlog Herr)
    as (pass & _ & ->).
  cbn [run_outcome run_world run_reports run_sink_returns].
  match goal with
  | |- context [emit ?c "FAIL" true ?p ?r] =>
      destruct (emit_sink_raises c "FAIL" true p r path err Hret Hlog Herr)
        as (fail & _ & ->)
  end.
  cbn. repeat split; eauto.
Qed.

Lemma X20_unopenable_log_file_turns_success_into_error_witness :
  run_outcome (wrapper posix_env log_to_locked_file returning_f [] locked_world)
  = Raise (PermissionError "[Errno 13] Permission denied: '/var/log/trace.log'").
Proof.
  destruct (X20_unopenable_log_file_turns_success_into_error posix_env log_to_locked_file
              returning_f [] locked_world _ _ _ "/var/log/trace.log" _
              eq_refl eq_refl eq_refl eq_refl eq_refl) as [Hraise _].
  exact Hraise.
Defined.

(** X21.  When the traced callable raises and the log file cannot be
    opened, the error of [open] escapes in place of the callable's
    exception, after the single [FAIL] report has been routed to the sink;
    nothing is written or printed. *)
Theorem X21_unopenable_log_file_masks_the_exception
    env cfg func args (w : World) deliveries exc w' path err :
  fn_call func args (settrace (Some (ContextTracer (fn_code func))) w)
    = (deliveries, Raise exc, w') ->
  cfg_return_trace cfg = false ->
  truthy (cfg_log_file cfg) = Some path ->
  open_errors w' !! path = Some err ->
  run_outcome (wrapper env cfg func args w) = Raise err
  /\ (exists fail, run_reports (wrapper env cfg func args w) = [mkReport "FAIL" true fail])
  /\ files (run_world (wrapper env cfg func args w)) = files w'
  /\ console (run_world (wrapper env cfg func args w)) = console w'.
Proof.
  intros Hcall Hret Hlog Herr.
  rewrite (wrapper_unfold env cfg func args w _ _ _ Hcall). cbv zeta.
  destruct (context_of_run_config env cfg func deliveries) as (Hlog' & Hret' & _).
  rewrite <- Hlog' in Hlog. rewrite <- Hret' in Hret.
  cbn [run_outcome run_world run_reports run_sink_returns].
  match goal with
  | |- context [emit ?c "FAIL" true ?p ?r] =>
      destruct (emit_sink_raises c "FAIL" true p r path err Hret Hlog Herr)
        as (fail & _ & ->)
  end.
  cbn. repeat split; eauto.
Qed.

Lemma X21_unopenable_log_file_masks_the_exception_witness :
  run_outcome (wrapper posix_env log_to_locked_file raising_f [] locked_world)
  = Raise (PermissionError "[Errno 13] Permission denied: '/var/log/trace.log'").
Proof.
  destruct (X21_unopenable_log_file_masks_the_exception posix_env log_to_locked_file
              raising_f [] locked_world _ _ _ "/var/log/trace.log" _
              eq_refl eq_refl eq_refl eq_refl) as [Hraise _].
  exact Hraise.
Defined.

(** X22.  In plain mode the [FAIL] report of a call that raised names in
    its header the last exception event the run recorded, with the place it
    was recorded at, and not the exception that escapes as such: when the
    run recorded no exception event the header falls back to
    [EXECUTION TRACE (no exception)]. *)
Theorem X22_fail_header_names_the_last_recorded_exception
    env cfg func args (w : World) deliveries exc w' :
  fn_call func args (settrace (Some (ContextTracer (fn_code func))) w)
    = (deliveries, Raise exc, w') ->
  cfg_use_rich cfg = false ->
  exists header,
    run_reports (wrapper env cfg func args w)
      = [mkReport "FAIL" true
           (FStr (join nl ([header; "=== BACKTRACE ==="]
                             ++ plain_lines (context_of_run env cfg func deliveries) true
                             ++ ["================="; "STATUS: FAIL"])%list))]
    /\ header =
       match last_exception (events (context_of_run env cfg func deliveries)) with
       | Some xi =>
           "EXCEPTION: " ++ exc_type_name (xi_exc xi) ++ ": " ++ exc_str (xi_exc xi)
             ++ " at " ++ xi_path xi ++ ":" ++ fmt_int (xi_lineno xi)
       | None =>
           match events (context_of_run env cfg func deliveries) with
           | first :: _ =>
               "EXECUTION TRACE (no exception) at " ++ ev_path first ++ ":"
                 ++ fmt_int (ev_lineno first)
           | [] => "EXECUTION TRACE (no exception)"
           end
       end.
Proof.
  intros Hcall Hplain.
  rewrite (wrapper_unfold env cfg func args w _ _ _ Hcall). cbv zeta.
  destruct (context_of_run_config env cfg func deliveries) as (_ & _ & Hrich).
  cbn [run_outcome run_world run_reports run_sink_returns].
  match goal with
  | |- context [emit ?c "FAIL" true ?p ?r] =>
      destruct (emit_spec c "FAIL" true p r) as (out & Hout & -> & _)
  end.
  unfold format_trace in Hout. rewrite Hrich, Hplain in Hout. cbn [negb] in Hout.
  injection Hout as <-.
  exists (plain_header (context_of_run env cfg func deliveries) true).
  split; [reflexivity|].
  unfold plain_header, context_of_run. rewrite feed_slot by reflexivity.
  destruct (last_exception _); reflexivity.
Qed.

Lemma X22_fail_header_names_the_last_recorded_exception_witness :
  exists lines,
    run_reports (wrapper posix_env return_plain raising_f [] empty_world)
    = [mkReport "FAIL" true
         (FStr (join nl (["EXCEPTION: ValueError: bad at main.py:5"; "=== BACKTRACE ==="]
                           ++ lines ++ ["================="; "STATUS: FAIL"])%list))].
Proof.
  destruct (X22_fail_header_names_the_last_recorded_exception posix_env return_plain
              raising_f [] empty_world _ _ _ eq_refl eq_refl) as (header & Hreports & Hheader).
  vm_compute in Hheader. subst header. eexists. exact Hreports.
Defined.

(** ** The warning reporter and the stringified panel *)

(** X23.  [log_warning] builds one report and sends it to exactly one
    destination, in the order of [output_trace]: returned as a string with
    [return_trace]; else appended with a newline to the log file, the
    error of [open] escaping with nothing written when the file cannot be
    opened; else to the console, the string printed in plain mode and the
    panel handed to the rich console in rich mode.  In plain mode the
    report is the newline-join of five items: the header with the type and
    message of the warning and the caller's location, [=== BACKTRACE ===],
    the warning site, [=================] and [STATUS: WARNING]; they are
    its five lines when type, message and path hold no newline.  In rich
    mode the string returned or written is [str(panel)]. *)
Theorem X23_log_warning_destinations env warning use_rich frame (w : World) :
  let rel_path := _get_relative_path env (co_filename (f_code frame)) in
  let items :=
    ["WARNING: " ++ warning_type warning ++ ": " ++ warning_message warning
       ++ " at " ++ rel_path ++ ":" ++ fmt_int (f_lineno frame);
     "=== BACKTRACE ===";
     "↳ " ++ rel_path ++ ":" ++ fmt_int (f_lineno frame) ++ " (warning_site)";
     "================="; "STATUS: WARNING"] in
  let panel :=
    mkPanel (RMarkup ("[yellow]↳[/yellow] " ++ rel_path ++ ":" ++ fmt_int (f_lineno frame)
                        ++ " (warning_site)"))
            ("[yellow bold]WARNING: " ++ warning_type warning ++ "[/yellow bold]")
            (warning_message warning) "yellow" (1, 2)%Z in
  exists report item,
    (forall log_file,
       log_warning env warning log_file true use_rich frame w = (Ok (Some report), w))
    /\ (forall log_file path,
          truthy log_file = Some path ->
          (open_errors w !! path = None ->
           log_warning env warning log_file false use_rich frame w
             = (Ok None,
                set_files (<[path := default "" (files w !! path) ++ (report ++ nl)]> (files w))
                          w))
          /\ (forall err,
                open_errors w !! path = Some err ->
                log_warning env warning log_file false use_rich frame w = (Raise err, w)))
    /\ (forall log_file,
          truthy log_file = None ->
          log_warning env warning log_file false use_rich frame w
            = (Ok None, console_out item w))
    /\ (use_rich = false ->
        report = join nl items
        /\ item = Printed report
        /\ (single_line (warning_type warning) && single_line (warning_message warning)
              && single_line rel_path = true ->
            text_lines report = items))
    /\ (use_rich = true -> report = Panel_str w panel /\ item = RichPrinted panel).
Proof.
  cbv zeta. destruct use_rich.
  - eexists _, _. split; [intros log_file; reflexivity|]. split; [|split; [|split]].
    + intros log_file path Hlog. unfold log_warning, append_to_file. rewrite Hlog.
      split; [intros -> | intros err ->]; reflexivity.
    + intros log_file Hlog. unfold log_warning. rewrite Hlog. reflexivity.
    + discriminate.
    + intros _. split; reflexivity.
  - eexists _, _. split; [intros log_file; reflexivity|]. split; [|split; [|split]].
    + intros log_file path Hlog. unfold log_warning, append_to_file. rewrite Hlog.
      split; [intros -> | intros err ->]; reflexivity.
    + intros log_file Hlog. unfold log_warning. rewrite Hlog. reflexivity.
    + intros _. split; [reflexivity|]. split; [reflexivity|].
      intros Hclean. apply andb_true_iff in Hclean as [Hclean Hpath].
      apply andb_true_iff in Hclean as [Htype Hmsg].
      apply text_lines_join; [discriminate|]. cbn [forallb].
      rewrite !single_line_app, single_line_fmt_int, Htype, Hmsg, Hpath. reflexivity.
    + discriminate.
Qed.

Lemma X23_log_warning_destinations_witness :
  log_warning posix_env (UserWarning "deprecated") (Some "/var/log/trace.log") false false
              frame_f locked_world
  = (Raise (PermissionError "[Errno 13] Permission denied: '/var/log/trace.log'"),
     locked_world)
  /\ log_warning posix_env (UserWarning "deprecated") None false false frame_f empty_world
     = (Ok None,
        console_out
          (Printed (join nl ["WARNING: UserWarning: deprecated at main.py:5";
                             "=== BACKTRACE ==="; "↳ main.py:5 (warning_site)";
                             "================="; "STATUS: WARNING"]))
          empty_world).
Proof.
  split.
  - destruct (X23_log_warning_destinations posix_env (UserWarning "deprecated") false frame_f
                locked_world) as (report & item & _ & Hfile & _).
    destruct (Hfile (Some "/var/log/trace.log") "/var/log/trace.log" eq_refl) as [_ Hraise].
    exact (Hraise _ eq_refl).
  - destruct (X23_log_warning_destinations posix_env (UserWarning "deprecated") false frame_f
                empty_world) as (report & item & _ & _ & Hconsole & Hplain & _).
    destruct (Hplain eq_refl) as (Hreport & Hitem & _).
    rewrite (Hconsole None eq_refl), Hitem, Hreport. reflexivity.
Defined.

Lemma object_str_chars cls addr c :
  In c (String.list_ascii_of_string (object_str cls addr)) ->
  In c (String.list_ascii_of_string ("<" ++ cls ++ " object at 0x"))
  \/ hex_digit c \/ c = ">"%char.
Proof.
  unfold object_str.
  replace ("<" ++ cls ++ " object at 0x" ++ hex addr ++ ">")
    with (("<" ++ cls ++ " object at 0x") ++ (hex addr ++ ">")).
  2:{ change ("<" ++ cls ++ " object at 0x" ++ hex addr ++ ">")
        with (String "<"%char (cls ++ (" object at 0x" ++ (hex addr ++ ">")))).
      change (("<" ++ cls ++ " object at 0x") ++ (hex addr ++ ">"))
        with (String "<"%char ((cls ++ " object at 0x") ++ (hex addr ++ ">"))).
      f_equal. induction cls as [|x cls IH]; [reflexivity|].
      change ((String x cls ++ " object at 0x") ++ hex addr ++ ">")
        with (String x ((cls ++ " object at 0x") ++ hex addr ++ ">")).
      change (String x cls ++ " object at 0x" ++ hex addr ++ ">")
        with (String x (cls ++ " object at 0x" ++ hex addr ++ ">")).
      now rewrite IH. }
  intros Hin. rewrite chars_app in Hin.
  apply in_app_or in Hin as [Hin|Hin]; [left; exact Hin|].
  rewrite chars_app in Hin. apply in_app_or in Hin as [Hin|Hin].
  - right. left. pose proof (hex_digits addr) as Hall. rewrite Forall_forall in Hall.
    apply Hall, list_elem_of_In, Hin.
  - right. right. cbn in Hin. destruct Hin as [<-|[]]. reflexivity.
Qed.

(** X24.  In rich mode the report is a panel, and the string made of it
    for [return_trace] or for the log file is the default representation of
    the panel object: it starts with [<rich.panel.Panel object at 0x] and
    holds neither the title words [EXCEPTION] and [EXECUTION TRACE] nor the
    status. *)
Theorem X24_stringified_panel_holds_no_trace ctx status is_failure :
  use_rich ctx = true ->
  exists panel,
    format_trace ctx status is_failure = Ok (FPanel panel)
    /\ forall w : World,
         String.prefix "<rich.panel.Panel object at 0x" (to_str w (FPanel panel)) = true
         /\ str_in "EXCEPTION" (to_str w (FPanel panel)) = false
         /\ str_in "EXECUTION TRACE" (to_str w (FPanel panel)) = false
         /\ str_in "STATUS" (to_str w (FPanel panel)) = false.
Proof.
  intros Hrich. destruct (format_trace_ok ctx status is_failure) as [out Hout].
  unfold format_trace in Hout. rewrite Hrich in Hout. cbn [negb] in Hout.
  destruct (build_tree_ok ctx is_failure) as [tree Htree]. rewrite Htree in Hout.
  assert (Hpanel : exists panel, out = FPanel panel).
  { destruct is_failure, (exception_info ctx); cbn in Hout; injection Hout as <-; eauto. }
  destruct Hpanel as [panel ->]. exists panel.
  split.
  { unfold format_trace. rewrite Hrich. cbn [negb]. rewrite Htree. exact Hout. }
  intros w. cbn [to_str]. unfold Panel_str.
  assert (Hlacks : forall needle c,
             In c (String.list_ascii_of_string needle) ->
             ~ In c (String.list_ascii_of_string "<rich.panel.Panel object at 0x") ->
             ~ hex_digit c -> c <> ">"%char ->
             str_in needle (object_str "rich.panel.Panel" (panel_addr w panel)) = false).
  { intros needle c Hc Hfixed Hhex Hgt.
    destruct (str_in needle _) eqn:Hin; [|reflexivity]. exfalso.
    destruct (object_str_chars _ _ c (str_in_chars _ _ c Hin Hc)) as [H|[H|H]]; auto. }
  split; [apply (prefix_append "<rich.panel.Panel object at 0x")|].
  split; [|split].
  - apply (Hlacks _ "E"%char); [cbn; auto | cbn; intuition discriminate
                                | unfold hex_digit; cbn; intuition discriminate | discriminate].
  - apply (Hlacks _ "E"%char); [cbn; auto | cbn; intuition discriminate
                                | unfold hex_digit; cbn; intuition discriminate | discriminate].
  - apply (Hlacks _ "S"%char); [cbn; auto | cbn; intuition discriminate
                                | unfold hex_digit; cbn; intuition discriminate | discriminate].
Qed.

Lemma X24_stringified_panel_holds_no_trace_witness :
  exists panel,
    format_trace (sample_ctx true) "FAIL" true = Ok (FPanel panel)
    /\ str_in "EXCEPTION" (to_str empty_world (FPanel panel)) = false.
Proof.
  destruct (X24_stringified_panel_holds_no_trace (sample_ctx true) "FAIL" true eq_refl)
    as (panel & Hfmt & Hstr).
  exists panel. split; [exact Hfmt|]. destruct (Hstr empty_world) as (_ & Hexc & _). exact Hexc.
Defined.
